(** * ThemeService: light/dark theme resolution of the messenger client

    A shallow embedding of [ThemeService] (theme.service.ts): the service
    state lives in an explicit record, every method ceq a function in a small
    state-and-exception monad, and the browser collaborators it talks to
    (local storage, [window.matchMedia], the body's class list, the renderer)
    are fields of that record. *)

From Stdlib Require Import ZArith String Ascii List Bool Lia.
From stdpp Require Import base option list gmap strings pretty.

Set Warnings "-register-all".

Local Open Scope string_scope.
Local Open Scope list_scope.
Local Open Scope Z_scope.

(** ** JavaScript values *)

(** The values [JSON.parse] can return, plus [undefined].  A number is kept
    as the exact decimal [m * 10^e] that its literal denotes. *)
Inductive JSValue : Type :=
| JUndefined
| JNull
| JBool (b : bool)
| JNumber (m e : Z)
| JString (s : string)
| JArray (xs : list JSValue)
| JObject (fields : list (string * JSValue)).

(** A decimal [m * 10^e] converts to the double [0] when it ceq zero or lies
    at or below half the least subnormal, [2^-1075] (ties go to even). *)
Definition number_is_zero (m e : Z) : bool :=
  if m =? 0 then true
  else if 0 <=? e then false
  else Z.abs m * 2 ^ 1075 <=? 10 ^ (- e).

(** [ToBoolean]: what [if (v)], [!v] and [v ? a : b] test. *)
Definition truthy (v : JSValue) : bool :=
  match v with
  | JUndefined | JNull => false
  | JBool b => b
  | JNumber m e => negb (number_is_zero m e)
  | JString s => negb (String.eqb s "")
  | JArray _ | JObject _ => true
  end.

(** Own-property lookup in an object's field list. *)
Fixpoint get_field (k : string) (fs : list (string * JSValue)) : JSValue :=
  match fs with
  | [] => JUndefined
  | (k', v) :: fs' => if String.eqb k' k then v else get_field k fs'
  end.

(** Property assignment [o[k] = v]: overwrite in place, or append. *)
Fixpoint set_field (k : string) (v : JSValue) (fs : list (string * JSValue))
  : list (string * JSValue) :=
  match fs with
  | [] => [(k, v)]
  | (k', v') :: fs' =>
      if String.eqb k' k then (k', v) :: fs' else (k', v') :: set_field k v fs'
  end.

(** [v?.k]: [undefined] on [null] and [undefined]; primitives and arrays
    have no such named property. *)
Definition opt_get (v : JSValue) (k : string) : JSValue :=
  match v with
  | JObject fs => get_field k fs
  | _ => JUndefined
  end.

Definition dquote : ascii := "034"%char.
Definition backslash : ascii := "092"%char.

(** ** JSON *)

Module JSON.

Definition ceq (c x : ascii) : bool := Ascii.eqb c x.

Definition ws (c : ascii) : bool :=
  ceq c " " || ceq c "009" || ceq c "010" || ceq c "013".

Fixpoint skip_ws (l : list ascii) : list ascii :=
  match l with
  | c :: r => if ws c then skip_ws r else l
  | [] => []
  end.

Fixpoint strip_prefix (p l : list ascii) : option (list ascii) :=
  match p, l with
  | [], _ => Some l
  | a :: p', b :: l' => if ceq a b then strip_prefix p' l' else None
  | _ :: _, [] => None
  end.

Definition code (c : ascii) : Z := Z.of_N (N_of_ascii c).

Definition digit (c : ascii) : option Z :=
  let n := code c in
  if (48 <=? n) && (n <=? 57) then Some (n - 48) else None.

Definition hex (c : ascii) : option Z :=
  let n := code c in
  if (48 <=? n) && (n <=? 57) then Some (n - 48)
  else if (97 <=? n) && (n <=? 102) then Some (n - 87)
  else if (65 <=? n) && (n <=? 70) then Some (n - 55)
  else None.

Definition hex4 (a b c d : ascii) : option Z :=
  match hex a, hex b, hex c, hex d with
  | Some x, Some y, Some z, Some w => Some (((x * 16 + y) * 16 + z) * 16 + w)
  | _, _, _, _ => None
  end.

Definition byte (n : Z) : ascii := ascii_of_N (Z.to_N n).

(** A UTF-16 code unit written [\uXXXX], as the bytes of its UTF-8 form. *)
Definition code_unit (n : Z) : list ascii :=
  if n <? 128 then [byte n]
  else if n <? 2048 then [byte (192 + n / 64); byte (128 + n mod 64)]
  else [byte (224 + n / 4096); byte (128 + (n / 64) mod 64);
        byte (128 + n mod 64)].

Definition escape (c : ascii) : option ascii :=
  if ceq c dquote then Some dquote
  else if ceq c backslash then Some backslash
  else if ceq c "/" then Some "/"%char
  else if ceq c "b" then Some "008"%char
  else if ceq c "f" then Some "012"%char
  else if ceq c "n" then Some "010"%char
  else if ceq c "r" then Some "013"%char
  else if ceq c "t" then Some "009"%char
  else None.

(** The characters of a string literal, after its opening quote. *)
Fixpoint chars (l : list ascii) : option (list ascii * list ascii) :=
  match l with
  | [] => None
  | c :: r =>
      if ceq c dquote then Some ([], r)
      else if ceq c backslash then
        match r with
        | [] => None
        | x :: r' =>
            if ceq x "u" then
              match r' with
              | h1 :: h2 :: h3 :: h4 :: r'' =>
                  match hex4 h1 h2 h3 h4 with
                  | Some n =>
                      match chars r'' with
                      | Some (s, rest) => Some (code_unit n ++ s, rest)
                      | None => None
                      end
                  | None => None
                  end
              | _ => None
              end
            else
              match escape x with
              | Some ch =>
                  match chars r' with
                  | Some (s, rest) => Some (ch :: s, rest)
                  | None => None
                  end
              | None => None
              end
        end
      else if code c <? 32 then None
      else
        match chars r with
        | Some (s, rest) => Some (c :: s, rest)
        | None => None
        end
  end.

(** A maximal run of decimal digits: value so far, count, remainder. *)
Fixpoint digits (acc n : Z) (l : list ascii) : Z * Z * list ascii :=
  match l with
  | c :: r =>
      match digit c with
      | Some d => digits (10 * acc + d) (n + 1) r
      | None => (acc, n, l)
      end
  | [] => (acc, n, [])
  end.

Definition sign (l : list ascii) : bool * list ascii :=
  match l with
  | c :: r => if ceq c "-" then (true, r) else (false, l)
  | [] => (false, l)
  end.

Definition fraction (i : Z) (l : list ascii) : option (Z * Z * list ascii) :=
  match l with
  | c :: r =>
      if ceq c "." then
        let '(v, n, r') := digits i 0 r in
        if n =? 0 then None else Some (v, n, r')
      else Some (i, 0, l)
  | [] => Some (i, 0, l)
  end.

Definition exponent (l : list ascii) : option (Z * list ascii) :=
  match l with
  | c :: r =>
      if ceq c "e" || ceq c "E" then
        let '(sgn, r1) :=
          match r with
          | c' :: r' =>
              if ceq c' "-" then (-1, r')
              else if ceq c' "+" then (1, r') else (1, r)
          | [] => (1, r)
          end in
        let '(v, n, r2) := digits 0 0 r1 in
        if n =? 0 then None else Some (sgn * v, r2)
      else Some (0, l)
  | [] => Some (0, l)
  end.

(** A number literal: an optional minus; an integer part that is a lone
    zero or starts with a non-zero digit; an optional fraction of at least
    one digit; an optional exponent of at least one digit. *)
Definition number (l : list ascii) : option (Z * Z * list ascii) :=
  let '(neg, l1) := sign l in
  match l1 with
  | [] => None
  | c :: r =>
      match digit c with
      | None => None
      | Some d =>
          let '(i, l2) :=
            if d =? 0 then (0, r)
            else let '(v, _, r') := digits d 1 r in (v, r') in
          match fraction i l2 with
          | None => None
          | Some (m, nfrac, l3) =>
              match exponent l3 with
              | None => None
              | Some (e, l4) =>
                  Some (if neg : bool then - m else m, e - nfrac, l4)
              end
          end
      end
  end.

Definition build_object (ms : list (string * JSValue)) : JSValue :=
  JObject (fold_left (fun acc kv => set_field (fst kv) (snd kv) acc) ms []).

(** One level of each production, with the productions it descends into
    passed in. *)
Definition value_step
    (elems : list ascii -> option (list JSValue * list ascii))
    (membs : list ascii -> option (list (string * JSValue) * list ascii))
    (l : list ascii) : option (JSValue * list ascii) :=
  match skip_ws l with
  | [] => None
  | c :: r =>
      if ceq c "n" then
        match strip_prefix ["u"; "l"; "l"]%char r with
        | Some r' => Some (JNull, r')
        | None => None
        end
      else if ceq c "t" then
        match strip_prefix ["r"; "u"; "e"]%char r with
        | Some r' => Some (JBool true, r')
        | None => None
        end
      else if ceq c "f" then
        match strip_prefix ["a"; "l"; "s"; "e"]%char r with
        | Some r' => Some (JBool false, r')
        | None => None
        end
      else if ceq c dquote then
        match chars r with
        | Some (s, r') => Some (JString (string_of_list_ascii s), r')
        | None => None
        end
      else if ceq c "[" then
        match skip_ws r with
        | [] => None
        | c' :: r' =>
            if ceq c' "]" then Some (JArray [], r')
            else
              match elems (c' :: r') with
              | Some (xs, r'') => Some (JArray xs, r'')
              | None => None
              end
        end
      else if ceq c "{" then
        match skip_ws r with
        | [] => None
        | c' :: r' =>
            if ceq c' "}" then Some (JObject [], r')
            else
              match membs (c' :: r') with
              | Some (ms, r'') => Some (build_object ms, r'')
              | None => None
              end
        end
      else
        match number (c :: r) with
        | Some (m, e, r') => Some (JNumber m e, r')
        | None => None
        end
  end.

Definition elements_step
    (val : list ascii -> option (JSValue * list ascii))
    (elems : list ascii -> option (list JSValue * list ascii))
    (l : list ascii) : option (list JSValue * list ascii) :=
  match val l with
  | None => None
  | Some (v, r) =>
      match skip_ws r with
      | [] => None
      | c :: r' =>
          if ceq c "," then
            match elems r' with
            | Some (vs, r'') => Some (v :: vs, r'')
            | None => None
            end
          else if ceq c "]" then Some ([v], r')
          else None
      end
  end.

Definition members_step
    (val : list ascii -> option (JSValue * list ascii))
    (membs : list ascii -> option (list (string * JSValue) * list ascii))
    (l : list ascii) : option (list (string * JSValue) * list ascii) :=
  match skip_ws l with
  | [] => None
  | c :: r =>
      if ceq c dquote then
        match chars r with
        | None => None
        | Some (k, r1) =>
            match skip_ws r1 with
            | [] => None
            | c1 :: r2 =>
                if ceq c1 ":" then
                  match val r2 with
                  | None => None
                  | Some (v, r3) =>
                      let kv := (string_of_list_ascii k, v) in
                      match skip_ws r3 with
                      | [] => None
                      | c3 :: r4 =>
                          if ceq c3 "," then
                            match membs r4 with
                            | Some (ms, r5) => Some (kv :: ms, r5)
                            | None => None
                            end
                          else if ceq c3 "}" then Some ([kv], r4)
                          else None
                      end
                  end
                else None
            end
        end
      else None
  end.

(** The three productions, descending at most [fuel] levels. *)
Fixpoint value (fuel : nat) (l : list ascii) : option (JSValue * list ascii) :=
  match fuel with
  | O => None
  | S fuel' => value_step (elements fuel') (members fuel') l
  end
with elements (fuel : nat) (l : list ascii)
  : option (list JSValue * list ascii) :=
  match fuel with
  | O => None
  | S fuel' => elements_step (value fuel') (elements fuel') l
  end
with members (fuel : nat) (l : list ascii)
  : option (list (string * JSValue) * list ascii) :=
  match fuel with
  | O => None
  | S fuel' => members_step (value fuel') (members fuel') l
  end.

(** Fuel that [value] cannot exhaust on an input of this length. *)
Definition enough (l : list ascii) : nat := S (2 * length l).

(** [JSON.parse(text)]; [None] stands for the [SyntaxError] it throws. *)
Definition parse (text : string) : option JSValue :=
  let l := list_ascii_of_string text in
  match value (enough l) l with
  | Some (v, r) =>
      match skip_ws r with
      | [] => Some v
      | _ :: _ => None
      end
  | None => None
  end.

(** What a production consumes: its remainder is shorter than its input. *)
Definition shrinks {A : Type} (p : list ascii -> option (A * list ascii))
  : Prop :=
  ∀ l a r, p l = Some (a, r) → (length r < length l)%nat.

Definition hex_digit (n : Z) : ascii :=
  if n <? 10 then byte (48 + n) else byte (87 + n).

Definition quote_char (c : ascii) : list ascii :=
  if ceq c dquote then [backslash; dquote]
  else if ceq c backslash then [backslash; backslash]
  else if ceq c "008" then [backslash; "b"%char]
  else if ceq c "012" then [backslash; "f"%char]
  else if ceq c "010" then [backslash; "n"%char]
  else if ceq c "013" then [backslash; "r"%char]
  else if ceq c "009" then [backslash; "t"%char]
  else if code c <? 32 then
    [backslash; "u"; "0"; "0"; hex_digit (code c / 16);
     hex_digit (code c mod 16)]%char
  else [c].

Definition quote (s : string) : string :=
  string_of_list_ascii
    (dquote :: flat_map quote_char (list_ascii_of_string s) ++ [dquote]).

(** A literal for [m * 10^e]; it denotes the same number, though not always
    in the digits that JavaScript prints.  The service only ever stores
    booleans. *)
Definition number_literal (m e : Z) : string :=
  (pretty m ++ (if Z.eqb e 0 then "" else "e" ++ pretty e))%string.

(** Serialization of a value that ceq not [undefined] (inside an array,
    [undefined] prints as [null]; a field holding it ceq left out). *)
Fixpoint text_of (v : JSValue) : string :=
  match v with
  | JUndefined | JNull => "null"
  | JBool true => "true"
  | JBool false => "false"
  | JNumber m e => number_literal m e
  | JString s => quote s
  | JArray xs =>
      ("[" ++
      (fix elems (xs : list JSValue) : string :=
         match xs with
         | [] => ""
         | [x] => text_of x
         | x :: xs' => text_of x ++ "," ++ elems xs'
         end) xs ++ "]")%string
  | JObject fs =>
      ("{" ++
      (fix membs (first : bool) (fs : list (string * JSValue)) : string :=
         match fs with
         | [] => ""
         | (_, JUndefined) :: fs' => membs first fs'
         | (k, x) :: fs' =>
             (if first then "" else ",") ++ quote k ++ ":" ++ text_of x
             ++ membs false fs'
         end) true fs ++ "}")%string
  end.

(** [JSON.stringify(v)]; [None] stands for the [undefined] it returns. *)
Definition stringify (v : JSValue) : option string :=
  match v with
  | JUndefined => None
  | _ => Some (text_of v)
  end.

End JSON.

(** ** The browser around the service *)

(** [window.matchMedia(query)] yields a [MediaQueryList]; its change event
    carries the new [matches]. *)
Record MediaQueryList := { matches : bool }.
Record MediaQueryListEvent := { event_matches : bool }.

(** A window, as far as the service looks at it: whether the OS currently
    asks for a dark colour scheme. *)
Record Window := { prefers_dark : bool }.

(** What [Renderer2] was asked to do; the element is always
    [document.body]. *)
Inductive RendererCall : Type :=
| AddClass (name : string)
| RemoveClass (name : string).

(** [DOMTokenList.add]: a token already present is not added again. *)
Definition classList_add (name : string) (cl : list string) : list string :=
  if existsb (String.eqb name) cl then cl else cl ++ [name].

(** [DOMTokenList.remove]. *)
Definition classList_remove (name : string) (cl : list string) : list string :=
  List.filter (fun c => negb (String.eqb name c)) cl.

Record State := {
  settings : JSValue;                 (* this.settings *)
  localStorage : gmap string string;  (* entries behind this._localStorage *)
  defaultView : option Window;        (* this.document.defaultView *)
  body : list string;                 (* this.document.body.classList *)
  rendered : list RendererCall;       (* calls made on this.renderer *)
  subscriptions : nat                 (* live change-event subscriptions *)
}.

Definition with_settings (v : JSValue) (s : State) : State :=
  {| settings := v; localStorage := localStorage s;
     defaultView := defaultView s; body := body s;
     rendered := rendered s; subscriptions := subscriptions s |}.

Definition with_localStorage (m : gmap string string) (s : State) : State :=
  {| settings := settings s; localStorage := m;
     defaultView := defaultView s; body := body s;
     rendered := rendered s; subscriptions := subscriptions s |}.

Definition with_defaultView (w : option Window) (s : State) : State :=
  {| settings := settings s; localStorage := localStorage s;
     defaultView := w; body := body s;
     rendered := rendered s; subscriptions := subscriptions s |}.

Definition with_render (cl : list string) (c : RendererCall) (s : State)
  : State :=
  {| settings := settings s; localStorage := localStorage s;
     defaultView := defaultView s; body := cl;
     rendered := rendered s ++ [c]; subscriptions := subscriptions s |}.

Definition with_subscriptions (n : nat) (s : State) : State :=
  {| settings := settings s; localStorage := localStorage s;
     defaultView := defaultView s; body := body s;
     rendered := rendered s; subscriptions := n |}.

(** ** State and exceptions *)

Inductive Error : Type :=
| SyntaxError   (* thrown by JSON.parse *)
| EmptyError.   (* raised by first() on a source that ends empty *)

(** How a computation ends.  A method returns or throws; a subscription to
    an observable runs to its end ([Returned]) or is cut short by an error
    notification ([Thrown]). *)
Inductive Outcome (A : Type) : Type :=
| Returned (a : A) (s : State)
| Thrown (e : Error) (s : State).
Arguments Returned {A} a s.
Arguments Thrown {A} e s.

Definition M (A : Type) : Type := State -> Outcome A.

#[global] Instance M_ret : MRet M := fun A a s => Returned a s.

#[global] Instance M_bind : MBind M := fun A B k c s =>
  match c s with
  | Returned a s' => k a s'
  | Thrown e s' => Thrown e s'
  end.

Definition get : M State := fun s => Returned s s.
Definition modify (f : State -> State) : M unit := fun s => Returned tt (f s).
Definition throw {A : Type} (e : Error) : M A := fun s => Thrown e s.

(** The state a computation ends in, whether it returned or threw. *)
Definition final {A : Type} (o : Outcome A) : State :=
  match o with
  | Returned _ s => s
  | Thrown _ s => s
  end.

(** Run [c] once per live subscription. *)
Fixpoint each (n : nat) (c : M unit) : M unit :=
  match n with
  | O => mret tt
  | S n' => c ;; each n' c
  end.

(** An observable that emits synchronously, as the list of its emissions. *)
Definition Observable (A : Type) : Type := list A.

(** What a subscription to [source.pipe(tap(f), first())] runs: [f] sees
    the first emission and [first()] then unsubscribes; a source without one
    ends in [EmptyError]; an exception in [f] becomes the error
    notification. *)
Definition tap_first {A : Type} (source : Observable A) (f : A -> M unit)
  : M unit :=
  match source with
  | [] => throw EmptyError
  | v :: _ => f v
  end.

(** [observable.subscribe()] with no callbacks.  The subscription runs; an
    error notification is not thrown to the caller of [subscribe()], which
    returns normally: the library keeps the error as unhandled and reports
    it on its own, later. *)
Definition subscribe (o : M unit) : M unit :=
  fun s => Returned tt (final (o s)).

(** The error such a subscription leaves unhandled, if any. *)
Definition unhandled (o : M unit) (s : State) : option Error :=
  match o s with
  | Returned _ _ => None
  | Thrown e _ => Some e
  end.

(** ** Collaborators of the service *)

Module Renderer2.

Definition addClass (name : string) : M unit :=
  modify (fun s => with_render (classList_add name (body s)) (AddClass name) s).

Definition removeClass (name : string) : M unit :=
  modify (fun s =>
            with_render (classList_remove name (body s)) (RemoveClass name) s).

End Renderer2.

Module LocalStorage.

(** Modelled from the spec: [LocalStorage.getItem]; the class is imported
    from core/storage/storages/local.storage and its code is missing.  A
    key-value store whose [getItem(key)] gives the serialized value or
    absent, delivered here as the single emission of the observable. *)
Definition getItem (key : string) : M (Observable (option string)) :=
  s ← get; mret [localStorage s !! key].

(** Modelled from the spec: [LocalStorage.setItem(key, value)], missing
    with its class; the value is kept JSON-serialized.  [localStorage] turns
    a missing serialization into the text [undefined]. *)
Definition setItem (key : string) (value : JSValue) : M unit :=
  modify (fun s =>
            with_localStorage
              (<[key := default "undefined" (JSON.stringify value)]>
                 (localStorage s)) s).

(** Modelled from the spec: [LocalStorage.removeItem(key)], missing with
    its class; the entry under the key is deleted. *)
Definition removeItem (key : string) : M unit :=
  modify (fun s => with_localStorage (delete key (localStorage s)) s).

End LocalStorage.

(** Modelled from the spec: [new ThemeSettings()]; the class is imported
    from ./theme-settings and its code is missing.  The record has the
    single field [darkMode], which the caller assigns right away. *)
Definition ThemeSettings_new : JSValue := JObject [].

(** ** ThemeService *)

Module ThemeService.

Definition LIGHT_MODE_CSS_CLASS_NAME : string := "theme-alternate".
Definition SETTINGS_KEY : string := "theme".
Definition SYSTEM_DARK_MODE_MEDIA_QUERY : string :=
  "(prefers-color-scheme: dark)".

Definition matchMedia (w : Window) (query : string) : MediaQueryList :=
  {| matches :=
       String.eqb query SYSTEM_DARK_MODE_MEDIA_QUERY && prefers_dark w |}.

Definition set_settings (v : JSValue) : M unit := modify (with_settings v).

(** [this.document.defaultView?.matchMedia(QUERY).matches!]: the optional
    chain gives [undefined] without a window, and the trailing [!] is erased
    by the compiler. *)
Definition isSystemDark : M JSValue :=
  s ← get;
  mret (match defaultView s with
        | Some w => JBool (matches (matchMedia w SYSTEM_DARK_MODE_MEDIA_QUERY))
        | None => JUndefined
        end).

Definition setMode (darkMode : JSValue) : M unit :=
  if truthy darkMode
  then Renderer2.removeClass LIGHT_MODE_CSS_CLASS_NAME
  else Renderer2.addClass LIGHT_MODE_CSS_CLASS_NAME.

(** [this.setMode(!!this.settings?.darkMode)] *)
Definition apply : M unit :=
  s ← get;
  setMode (JBool (truthy (opt_get (settings s) "darkMode"))).

(** The callback piped onto the change event:
    [setMode(e ? e.matches : this.isSystemDark())]. *)
Definition on_change (e : option MediaQueryListEvent) : M unit :=
  darkMode ← match e with
             | Some ev => mret (JBool (event_matches ev))
             | None => isSystemDark
             end;
  setMode darkMode.

(** Subscribes [on_change] to the media query's change event, until
    [_destroy$] emits; nothing happens without a window. *)
Definition startSystemModeSynchronization : M unit :=
  s ← get;
  match defaultView s with
  | Some _ => modify (with_subscriptions (S (subscriptions s)))
  | None => mret tt
  end.

Definition _getDefaultSettings (key : string) : M unit :=
  source ← LocalStorage.getItem key;
  tap_first source (fun serializedValue =>
    match serializedValue with
    | Some text =>
        if truthy (JString text) then
          match JSON.parse text with
          | Some v => set_settings v
          | None => throw SyntaxError
          end
        else set_settings JUndefined
    | None => set_settings JUndefined
    end ;;
    s ← get;
    if negb (truthy (settings s)) then
      set_settings ThemeSettings_new ;;
      darkMode ← isSystemDark;
      modify (fun s' =>
                with_settings
                  (JObject (set_field "darkMode" darkMode
                              match settings s' with
                              | JObject fs => fs
                              | _ => []
                              end)) s') ;;
      startSystemModeSynchronization
    else mret tt).

(** A new instance: [settings] starts out [undefined]; creating the
    renderer touches nothing; the last line is
    [this._getDefaultSettings(SETTINGS_KEY).subscribe()]. *)
Definition constructor : M unit :=
  set_settings JUndefined ;;
  subscribe (_getDefaultSettings SETTINGS_KEY).

(** The error the constructor's subscription leaves unhandled, if any. *)
Definition constructor_unhandled (s : State) : option Error :=
  unhandled (_getDefaultSettings SETTINGS_KEY) (with_settings JUndefined s).

Definition setSystemMode : M unit :=
  darkMode ← isSystemDark;
  setMode darkMode ;;
  startSystemModeSynchronization ;;
  LocalStorage.removeItem SETTINGS_KEY.

Definition setUserDefinedMode (darkMode : bool) : M unit :=
  setMode (JBool darkMode) ;;
  set_settings (JObject [("darkMode", JBool darkMode)]) ;;
  s ← get;
  LocalStorage.setItem SETTINGS_KEY (settings s).

Definition setLightMode : M unit := setUserDefinedMode false.

Definition setDarkMode : M unit := setUserDefinedMode true.

End ThemeService.

(** ** What happens around the service *)

(** The OS colour scheme changes: the media query flips and each live
    subscription receives the change event. *)
Definition os_preference_change (dark : bool) : M unit :=
  modify (fun s =>
            with_defaultView
              (match defaultView s with
               | Some _ => Some {| prefers_dark := dark |}
               | None => None
               end) s) ;;
  s ← get;
  each (subscriptions s)
       (ThemeService.on_change (Some {| event_matches := dark |})).

(** Modelled from the spec: the emission of [_destroy$]; [DestroyService]
    is imported from shared/services/destroy/destroy.service and its code
    is missing.  It is the single lifecycle signal that ends the owning
    scope; [takeUntil] completes every subscription live at that moment. *)
Definition destroy : M unit := modify (with_subscriptions O).

(** A run of OS preference changes, one after the other. *)
Fixpoint os_preference_changes (darks : list bool) : M unit :=
  match darks with
  | [] => mret tt
  | d :: ds => os_preference_change d ;; os_preference_changes ds
  end.

(** ** Vocabulary of the statements *)

Import ThemeService.

(** The renderer call that shows a mode, the class list that call leaves
    behind, and the state after it. *)
Definition call_for (dark : bool) : RendererCall :=
  if dark then RemoveClass LIGHT_MODE_CSS_CLASS_NAME
  else AddClass LIGHT_MODE_CSS_CLASS_NAME.

Definition classes_for (dark : bool) (cl : list string) : list string :=
  if dark then classList_remove LIGHT_MODE_CSS_CLASS_NAME cl
  else classList_add LIGHT_MODE_CSS_CLASS_NAME cl.

Definition shown (dark : bool) (s : State) : State :=
  with_render (classes_for dark (body s)) (call_for dark) s.

(** Whether the body carries the light-mode class. *)
Definition light_class_on (s : State) : bool :=
  existsb (String.eqb LIGHT_MODE_CSS_CLASS_NAME) (body s).

(** The settings record [{darkMode: b}] and its JSON text. *)
Definition record (b : bool) : JSValue := JObject [("darkMode", JBool b)].

Definition record_text (b : bool) : string :=
  String "{" (String dquote ("darkMode" ++
    String dquote (":" ++ (if b then "true" else "false") ++ "}")))%string.

(** A page whose body is still light, no stored record, the OS asking for a
    dark scheme. *)
Definition no_record_dark : State :=
  {| settings := JUndefined; localStorage := ∅;
     defaultView := Some {| prefers_dark := true |};
     body := [LIGHT_MODE_CSS_CLASS_NAME]; rendered := [];
     subscriptions := 0 |}.

(** A page whose body is dark, with the stored record [{darkMode: false}]. *)
Definition stored_light : State :=
  {| settings := JUndefined;
     localStorage := {[ SETTINGS_KEY := record_text false ]};
     defaultView := Some {| prefers_dark := true |};
     body := []; rendered := []; subscriptions := 0 |}.

(** A page whose stored value under the key is the given text. *)
Definition stored (text : string) : State :=
  {| settings := JUndefined;
     localStorage := {[ SETTINGS_KEY := text ]};
     defaultView := Some {| prefers_dark := true |};
     body := []; rendered := []; subscriptions := 0 |}.

(** A document without a window. *)
Definition headless : State :=
  {| settings := JUndefined; localStorage := ∅; defaultView := None;
     body := []; rendered := []; subscriptions := 0 |}.

(** C1 as the specification words it, at one starting state: constructing
    the service applies the OS mode and starts the synchronization. *)
Definition initialize_applies_system_mode (s : State) : Prop :=
  ∀ w, localStorage s !! SETTINGS_KEY = None → defaultView s = Some w →
    ∃ s', constructor s = Returned tt s'
          ∧ rendered s' = rendered s ++ [call_for (prefers_dark w)]
          ∧ body s' = classes_for (prefers_dark w) (body s)
          ∧ subscriptions s' = S (subscriptions s).

(** C2 as the specification words it, at one starting state: constructing
    the service applies the stored mode and starts no synchronization. *)
Definition initialize_applies_stored_mode (s : State) : Prop :=
  ∀ text b, localStorage s !! SETTINGS_KEY = Some text →
    JSON.parse text = Some (record b) →
    ∃ s', constructor s = Returned tt s'
          ∧ rendered s' = rendered s ++ [call_for b]
          ∧ body s' = classes_for b (body s)
          ∧ subscriptions s' = subscriptions s.

(** C8 as the specification words it, at one starting state: a stored value
    that is not valid JSON makes construction fail, with no settings built. *)
Definition malformed_record_fails (s : State) : Prop :=
  ∀ text, localStorage s !! SETTINGS_KEY = Some text →
    JSON.parse text = None →
    ∃ s', constructor s = Thrown SyntaxError s' ∧ settings s' = JUndefined.

(** ** Sequences of calls *)

(** What can happen to a service: its public methods, a new instance, a
    change of the OS preference, the teardown signal. *)
Inductive Call : Type :=
| New
| Apply
| SetSystemMode
| SetUserDefinedMode (darkMode : bool)
| SetLightMode
| SetDarkMode
| OsChange (dark : bool)
| Destroy.

Definition perform (c : Call) : M unit :=
  match c with
  | New => constructor
  | Apply => apply
  | SetSystemMode => setSystemMode
  | SetUserDefinedMode b => setUserDefinedMode b
  | SetLightMode => setLightMode
  | SetDarkMode => setDarkMode
  | OsChange d => os_preference_change d
  | Destroy => destroy
  end.

(** The calls one after the other; an error ends the run. *)
Fixpoint perform_all (cs : list Call) : M unit :=
  match cs with
  | [] => mret tt
  | c :: cs' => perform c ;; perform_all cs'
  end.

(** The state the constructor leaves when it takes the mode from the OS:
    with a window the preference and one more subscription, without one a
    [darkMode] that is [undefined]. *)
Definition fallback_state (s : State) : State :=
  match defaultView s with
  | Some w =>
      with_subscriptions (S (subscriptions s))
        (with_settings (record (prefers_dark w)) s)
  | None => with_settings (JObject [("darkMode", JUndefined)]) s
  end.

(** The state once the OS preference has changed, before any subscriber
    has run. *)
Definition flipped (d : bool) (s : State) : State :=
  with_defaultView
    (match defaultView s with
     | Some _ => Some {| prefers_dark := d |}
     | None => None
     end) s.

(** The value under the settings key is absent or a record the service
    wrote. *)
Definition written_by_service (s : State) : Prop :=
  localStorage s !! SETTINGS_KEY = None
  ∨ ∃ b, localStorage s !! SETTINGS_KEY = Some (record_text b).

(** The settings hold a definite boolean, in a page with a window and a
    store that only the service writes. *)
Definition resolved (s : State) : Prop :=
  defaultView s ≠ None
  ∧ written_by_service s
  ∧ ∃ b, settings s = record b.

(** A renderer call about the light-mode class. *)
Definition on_light_class (c : RendererCall) : Prop :=
  c = AddClass LIGHT_MODE_CSS_CLASS_NAME
  ∨ c = RemoveClass LIGHT_MODE_CSS_CLASS_NAME.

(** The body's light-mode class is as the renderer's latest call left it. *)
Definition in_sync (s : State) : Prop :=
  match last (rendered s) with
  | Some (AddClass _) => light_class_on s = true
  | Some (RemoveClass _) => light_class_on s = false
  | None => True
  end.

(** A page that follows the OS with two subscriptions and a stored record
    left by some other code path. *)
Definition busy_page : State :=
  {| settings := record false;
     localStorage := {[ SETTINGS_KEY := record_text true;
                        "token" := "abc" ]};
     defaultView := Some {| prefers_dark := false |};
     body := ["app"; LIGHT_MODE_CSS_CLASS_NAME; "wide"];
     rendered := []; subscriptions := 2 |}.

(** * Properties *)

(** ** The monad, step by step *)

Lemma bind_eq {A B : Type} (c : M A) (k : A -> M B) (s : State) :
  (c ≫= k) s =
  match c s with
  | Returned a s' => k a s'
  | Thrown e s' => Thrown e s'
  end.
Proof. reflexivity. Qed.

Lemma bind_returned {A B : Type} (c : M A) (k : A -> M B) s a s' :
  c s = Returned a s' → (c ≫= k) s = k a s'.
Proof. intros H. rewrite bind_eq, H. reflexivity. Qed.

Lemma bind_thrown {A B : Type} (c : M A) (k : A -> M B) s e s' :
  c s = Thrown e s' → (c ≫= k) s = Thrown e s'.
Proof. intros H. rewrite bind_eq, H. reflexivity. Qed.

(** ** Class lists *)

Lemma classList_add_present name cl :
  existsb (String.eqb name) (classList_add name cl) = true.
Proof.
  unfold classList_add.
  destruct (existsb (String.eqb name) cl) eqn:E; [exact E|].
  rewrite existsb_app. simpl. rewrite String.eqb_refl.
  now rewrite orb_true_r.
Qed.

Lemma classList_add_idem name cl :
  classList_add name (classList_add name cl) = classList_add name cl.
Proof.
  unfold classList_add at 1. now rewrite classList_add_present.
Qed.

Lemma classList_remove_idem name cl :
  classList_remove name (classList_remove name cl) = classList_remove name cl.
Proof.
  unfold classList_remove.
  induction cl as [|c cl IH]; simpl; [reflexivity|].
  destruct (String.eqb name c) eqn:E; simpl; [exact IH|].
  rewrite E. simpl. now rewrite IH.
Qed.

Lemma classList_remove_absent name cl :
  existsb (String.eqb name) (classList_remove name cl) = false.
Proof.
  unfold classList_remove.
  induction cl as [|c cl IH]; simpl; [reflexivity|].
  destruct (String.eqb name c) eqn:E; simpl; [exact IH|].
  now rewrite E, IH.
Qed.

(** ** The fuel of the JSON parser *)

Section ParserFuel.

Import JSON.

Local Arguments ceq : simpl never.
Local Arguments digit : simpl never.
Local Arguments hex4 : simpl never.
Local Arguments escape : simpl never.
Local Arguments code : simpl never.

Lemma skip_ws_length (l : list ascii) :
  (length (skip_ws l) <= length l)%nat.
Proof.
  induction l as [|c l IH]; simpl; [lia|].
  destruct (ws c); simpl; lia.
Qed.

Lemma skip_ws_cons (l : list ascii) c r :
  skip_ws l = c :: r → (S (length r) <= length l)%nat.
Proof.
  intros H. pose proof (skip_ws_length l) as Hl. rewrite H in Hl.
  exact Hl.
Qed.

Lemma strip_prefix_length (p : list ascii) :
  ∀ l r, strip_prefix p l = Some r → (length r <= length l)%nat.
Proof.
  induction p as [|a p IH]; intros l r H; simpl in H.
  - injection H as <-. lia.
  - destruct l as [|b l]; [discriminate|].
    destruct (ceq a b); [|discriminate].
    apply IH in H. simpl. lia.
Qed.

Lemma chars_length_upto (n : nat) :
  ∀ l s r, (length l <= n)%nat → chars l = Some (s, r) →
           (length r < length l)%nat.
Proof.
  induction n as [|n IH]; intros l s r Hn H.
  - destruct l; [discriminate | simpl in Hn; lia].
  - destruct l as [|c l]; [discriminate|]. simpl in H, Hn.
    destruct (ceq c dquote).
    { injection H as _ <-. simpl. lia. }
    destruct (ceq c backslash).
    { destruct l as [|x l]; [discriminate|].
      destruct (ceq x "u").
      - destruct l as [|h1 [|h2 [|h3 [|h4 l]]]]; try discriminate.
        destruct (hex4 h1 h2 h3 h4); [|discriminate].
        destruct (chars l) as [[s' r']|] eqn:E; [|discriminate].
        injection H as _ <-.
        apply IH in E; [simpl; lia | simpl in Hn; lia].
      - destruct (escape x); [|discriminate].
        destruct (chars l) as [[s' r']|] eqn:E; [|discriminate].
        injection H as _ <-.
        apply IH in E; [simpl; lia | simpl in Hn; lia]. }
    destruct (code c <? 32); [discriminate|].
    destruct (chars l) as [[s' r']|] eqn:E; [|discriminate].
    injection H as _ <-.
    apply IH in E; [simpl; lia | lia].
Qed.

Lemma chars_length l s r :
  chars l = Some (s, r) → (length r < length l)%nat.
Proof. apply (chars_length_upto (length l)). lia. Qed.

Lemma digits_length (l : list ascii) :
  ∀ acc n, (length (snd (digits acc n l)) <= length l)%nat.
Proof.
  induction l as [|c l IH]; intros acc n; simpl; [lia|].
  destruct (digit c); simpl; [|lia].
  specialize (IH (10 * acc + z) (n + 1)). lia.
Qed.

Lemma fraction_length i l m n r :
  fraction i l = Some (m, n, r) → (length r <= length l)%nat.
Proof.
  unfold fraction. destruct l as [|c l].
  - intros H. injection H as _ _ <-. lia.
  - destruct (ceq c ".").
    + pose proof (digits_length l i 0) as Hd.
      destruct (digits i 0 l) as [[v k] r']. simpl in Hd.
      destruct (k =? 0); [discriminate|].
      intros H. injection H as _ _ <-. simpl. lia.
    + intros H. injection H as _ _ <-. lia.
Qed.

Lemma exponent_length l e r :
  exponent l = Some (e, r) → (length r <= length l)%nat.
Proof.
  unfold exponent. destruct l as [|c l].
  - intros H. injection H as _ <-. lia.
  - destruct (ceq c "e" || ceq c "E").
    + assert (Hs : ∀ sg r1,
                 (length r1 <= length l)%nat →
                 (let '(v, n, r2) := digits 0 0 r1 in
                  if n =? 0 then None else Some (sg * v, r2)) = Some (e, r) →
                 (length r <= length (c :: l))%nat).
      { intros sg r1 Hr1 H. pose proof (digits_length r1 0 0) as Hd.
        destruct (digits 0 0 r1) as [[v k] r2]. simpl in Hd.
        destruct (k =? 0); [discriminate|].
        injection H as _ <-. simpl. lia. }
      destruct l as [|c' l']; [apply Hs; simpl; lia|].
      destruct (ceq c' "-"); [apply Hs; simpl; lia|].
      destruct (ceq c' "+"); apply Hs; simpl; lia.
    + intros H. injection H as _ <-. lia.
Qed.

Lemma number_length l m e r :
  number l = Some (m, e, r) → (length r < length l)%nat.
Proof.
  unfold number.
  assert (Hsign : (length (snd (sign l)) <= length l)%nat).
  { destruct l as [|c l]; simpl; [lia|]. destruct (ceq c "-"); simpl; lia. }
  destruct (sign l) as [neg l1]. simpl in Hsign.
  destruct l1 as [|c r0]; [discriminate|].
  destruct (digit c) as [d|]; [|discriminate].
  assert (Hint : ∀ i l2, (length l2 <= length r0)%nat →
            match fraction i l2 with
            | Some (m0, nfrac, l3) =>
                match exponent l3 with
                | Some (e0, l4) =>
                    Some (if neg : bool then - m0 else m0, e0 - nfrac, l4)
                | None => None
                end
            | None => None
            end = Some (m, e, r) → (length r < length l)%nat).
  { intros i l2 Hl2 H.
    destruct (fraction i l2) as [[[m0 nfrac] l3]|] eqn:Ef; [|discriminate].
    destruct (exponent l3) as [[e0 l4]|] eqn:Ee; [|discriminate].
    injection H as _ _ <-.
    apply fraction_length in Ef. apply exponent_length in Ee.
    simpl in Hsign. lia. }
  destruct (d =? 0); [apply Hint; lia|].
  pose proof (digits_length r0 d 1) as Hd.
  destruct (digits d 1 r0) as [[v k] r']. simpl in Hd.
  apply Hint. exact Hd.
Qed.

Lemma value_step_shrinks elems membs :
  shrinks elems → shrinks membs → shrinks (value_step elems membs).
Proof.
  intros He Hm l v r H. unfold value_step in H.
  destruct (skip_ws l) as [|c r0] eqn:E; [discriminate|].
  apply skip_ws_cons in E.
  destruct (ceq c "n").
  { destruct (strip_prefix _ r0) eqn:P; [|discriminate].
    injection H as _ <-. apply strip_prefix_length in P. lia. }
  destruct (ceq c "t").
  { destruct (strip_prefix _ r0) eqn:P; [|discriminate].
    injection H as _ <-. apply strip_prefix_length in P. lia. }
  destruct (ceq c "f").
  { destruct (strip_prefix _ r0) eqn:P; [|discriminate].
    injection H as _ <-. apply strip_prefix_length in P. lia. }
  destruct (ceq c dquote).
  { destruct (chars r0) as [[s r1]|] eqn:P; [|discriminate].
    injection H as _ <-. apply chars_length in P. lia. }
  destruct (ceq c "[").
  { destruct (skip_ws r0) as [|c1 r1] eqn:E1; [discriminate|].
    apply skip_ws_cons in E1.
    destruct (ceq c1 "]"); [injection H as _ <-; lia|].
    destruct (elems (c1 :: r1)) as [[xs r2]|] eqn:P; [|discriminate].
    injection H as _ <-. apply He in P. simpl in P. lia. }
  destruct (ceq c "{").
  { destruct (skip_ws r0) as [|c1 r1] eqn:E1; [discriminate|].
    apply skip_ws_cons in E1.
    destruct (ceq c1 "}"); [injection H as _ <-; lia|].
    destruct (membs (c1 :: r1)) as [[ms r2]|] eqn:P; [|discriminate].
    injection H as _ <-. apply Hm in P. simpl in P. lia. }
  destruct (number (c :: r0)) as [[[m e] r1]|] eqn:P; [|discriminate].
  injection H as _ <-. apply number_length in P. simpl in P. lia.
Qed.

Lemma elements_step_shrinks val elems :
  shrinks val → shrinks elems → shrinks (elements_step val elems).
Proof.
  intros Hv He l vs r H. unfold elements_step in H.
  destruct (val l) as [[v r0]|] eqn:P; [|discriminate]. apply Hv in P.
  destruct (skip_ws r0) as [|c r1] eqn:E; [discriminate|].
  apply skip_ws_cons in E.
  destruct (ceq c ",").
  { destruct (elems r1) as [[xs r2]|] eqn:Q; [|discriminate].
    injection H as _ <-. apply He in Q. lia. }
  destruct (ceq c "]"); [|discriminate].
  injection H as _ <-. lia.
Qed.

Lemma members_step_shrinks val membs :
  shrinks val → shrinks membs → shrinks (members_step val membs).
Proof.
  intros Hv Hm l ms r H. unfold members_step in H.
  destruct (skip_ws l) as [|c r0] eqn:E; [discriminate|].
  apply skip_ws_cons in E.
  destruct (ceq c dquote); [|discriminate].
  destruct (chars r0) as [[k r1]|] eqn:P; [|discriminate].
  apply chars_length in P.
  destruct (skip_ws r1) as [|c1 r2] eqn:E1; [discriminate|].
  apply skip_ws_cons in E1.
  destruct (ceq c1 ":"); [|discriminate].
  destruct (val r2) as [[v r3]|] eqn:Q; [|discriminate]. apply Hv in Q.
  destruct (skip_ws r3) as [|c3 r4] eqn:E3; [discriminate|].
  apply skip_ws_cons in E3.
  destruct (ceq c3 ",").
  { destruct (membs r4) as [[ms' r5]|] eqn:R; [|discriminate].
    injection H as _ <-. apply Hm in R. lia. }
  destruct (ceq c3 "}"); [|discriminate].
  injection H as _ <-. lia.
Qed.

Lemma productions_shrink (fuel : nat) :
  shrinks (value fuel) ∧ shrinks (elements fuel) ∧ shrinks (members fuel).
Proof.
  induction fuel as [|f (Hv & He & Hm)].
  - repeat split; intros l a r H; discriminate H.
  - split; [|split].
    + apply value_step_shrinks; assumption.
    + apply elements_step_shrinks; assumption.
    + apply members_step_shrinks; assumption.
Qed.

(** A step only looks at what its sub-productions do on shorter inputs. *)
Lemma value_step_ext elems elems' membs membs' l :
  (∀ l', (length l' < length l)%nat → elems l' = elems' l') →
  (∀ l', (length l' < length l)%nat → membs l' = membs' l') →
  value_step elems membs l = value_step elems' membs' l.
Proof.
  intros He Hm. unfold value_step.
  destruct (skip_ws l) as [|c r0] eqn:E; [reflexivity|].
  apply skip_ws_cons in E.
  repeat (match goal with
          | |- (if ?b then _ else _) = _ => destruct b; [reflexivity|]
          end).
  destruct (ceq c "[").
  { destruct (skip_ws r0) as [|c1 r1] eqn:E1; [reflexivity|].
    apply skip_ws_cons in E1.
    destruct (ceq c1 "]"); [reflexivity|].
    rewrite He; [reflexivity | simpl; lia]. }
  destruct (ceq c "{"); [|reflexivity].
  destruct (skip_ws r0) as [|c1 r1] eqn:E1; [reflexivity|].
  apply skip_ws_cons in E1.
  destruct (ceq c1 "}"); [reflexivity|].
  rewrite Hm; [reflexivity | simpl; lia].
Qed.

Lemma elements_step_ext val val' elems elems' l :
  shrinks val →
  val l = val' l →
  (∀ l', (S (S (length l')) <= length l)%nat → elems l' = elems' l') →
  elements_step val elems l = elements_step val' elems' l.
Proof.
  intros Hs Hv He. unfold elements_step. rewrite <- Hv.
  destruct (val l) as [[v r0]|] eqn:P; [|reflexivity]. apply Hs in P.
  destruct (skip_ws r0) as [|c r1] eqn:E; [reflexivity|].
  apply skip_ws_cons in E.
  destruct (ceq c ","); [|reflexivity].
  rewrite He; [reflexivity | lia].
Qed.

Lemma members_step_ext val val' membs membs' l :
  shrinks val →
  (∀ l', (length l' < length l)%nat → val l' = val' l') →
  (∀ l', (S (S (length l')) <= length l)%nat → membs l' = membs' l') →
  members_step val membs l = members_step val' membs' l.
Proof.
  intros Hs Hv Hm. unfold members_step.
  destruct (skip_ws l) as [|c r0] eqn:E; [reflexivity|].
  apply skip_ws_cons in E.
  destruct (ceq c dquote); [|reflexivity].
  destruct (chars r0) as [[k r1]|] eqn:P; [|reflexivity].
  apply chars_length in P.
  destruct (skip_ws r1) as [|c1 r2] eqn:E1; [reflexivity|].
  apply skip_ws_cons in E1.
  destruct (ceq c1 ":"); [|reflexivity].
  rewrite <- Hv by lia.
  destruct (val r2) as [[v r3]|] eqn:Q; [|reflexivity]. apply Hs in Q.
  destruct (skip_ws r3) as [|c3 r4] eqn:E3; [reflexivity|].
  apply skip_ws_cons in E3.
  destruct (ceq c3 ","); [|reflexivity].
  rewrite Hm; [reflexivity | lia].
Qed.

(** One more level changes nothing once the fuel covers twice the input. *)
Lemma one_more_level (fuel : nat) :
  (∀ l, (2 * length l + 1 <= fuel)%nat → value (S fuel) l = value fuel l)
  ∧ (∀ l, (2 * length l + 2 <= fuel)%nat →
          elements (S fuel) l = elements fuel l)
  ∧ (∀ l, (2 * length l + 2 <= fuel)%nat →
          members (S fuel) l = members fuel l).
Proof.
  induction fuel as [|f (IHv & IHe & IHm)].
  - repeat split; intros l H; lia.
  - destruct (productions_shrink (S f)) as (Sv & _ & _).
    split; [|split]; intros l Hl.
    + change (value_step (elements (S f)) (members (S f)) l
              = value_step (elements f) (members f) l).
      apply value_step_ext; intros l' Hl'; [apply IHe | apply IHm]; lia.
    + change (elements_step (value (S f)) (elements (S f)) l
              = elements_step (value f) (elements f) l).
      apply elements_step_ext; [exact Sv | apply IHv; lia |].
      intros l' Hl'. apply IHe. lia.
    + change (members_step (value (S f)) (members (S f)) l
              = members_step (value f) (members f) l).
      apply members_step_ext; [exact Sv | |];
        intros l' Hl'; [apply IHv | apply IHm]; lia.
Qed.

(** The fuel [JSON.parse] hands out is never what makes it fail: with any
    larger amount the outcome is the same. *)
Theorem parse_fuel_enough (l : list ascii) (fuel : nat) :
  (enough l <= fuel)%nat → value fuel l = value (enough l) l.
Proof.
  intros H. induction H as [|f Hle IH]; [reflexivity|].
  destruct (one_more_level f) as (Hv & _ & _).
  rewrite Hv; [exact IH|]. unfold enough in Hle. lia.
Qed.

End ParserFuel.

(** ** One method at a time *)

(** Unfolds the methods and the monad down to matches on the state. *)
Ltac run :=
  cbv beta iota zeta delta
    [mbind M_bind mret M_ret get modify throw tap_first set_settings
     subscribe unhandled constructor_unhandled final constructor _getDefaultSettings isSystemDark setMode apply on_change
     startSystemModeSynchronization setSystemMode setUserDefinedMode
     LocalStorage.getItem LocalStorage.setItem LocalStorage.removeItem
     Renderer2.addClass Renderer2.removeClass destroy os_preference_change].

Lemma setMode_bool (b : bool) (s : State) :
  setMode (JBool b) s = Returned tt (shown b s).
Proof. destruct b; reflexivity. Qed.

Lemma isSystemDark_window s w :
  defaultView s = Some w → isSystemDark s = Returned (JBool (prefers_dark w)) s.
Proof. intros H. run. rewrite H. reflexivity. Qed.

Lemma isSystemDark_no_window s :
  defaultView s = None → isSystemDark s = Returned JUndefined s.
Proof. intros H. run. now rewrite H. Qed.

Lemma startSystemModeSynchronization_window s w :
  defaultView s = Some w →
  startSystemModeSynchronization s
  = Returned tt (with_subscriptions (S (subscriptions s)) s).
Proof. intros H. run. now rewrite H. Qed.

(** Without a stored value the constructor builds the settings from the OS
    preference and subscribes; it asks nothing of the renderer. *)
Lemma constructor_absent s w :
  localStorage s !! SETTINGS_KEY = None → defaultView s = Some w →
  constructor s
  = Returned tt (with_subscriptions (S (subscriptions s))
                   (with_settings (record (prefers_dark w)) s)).
Proof.
  intros Hk Hw. run. simpl. rewrite Hk. simpl. rewrite Hw. reflexivity.
Qed.

Lemma apply_eq s :
  apply s
  = Returned tt (shown (truthy (opt_get (settings s) "darkMode")) s).
Proof. unfold apply. rewrite bind_eq. apply setMode_bool. Qed.

Lemma text_truthy_of_parse text v :
  JSON.parse text = Some v → negb (String.eqb text "") = true.
Proof. destruct text; [discriminate | reflexivity]. Qed.

(** A stored text that parses to a truthy value becomes the settings: no
    subscription, nothing asked of the renderer. *)
Lemma constructor_stored s text v :
  localStorage s !! SETTINGS_KEY = Some text →
  JSON.parse text = Some v → truthy v = true →
  constructor s = Returned tt (with_settings v s).
Proof.
  intros Hk Hp Hv. run. simpl. rewrite Hk.
  rewrite (text_truthy_of_parse _ _ Hp), Hp. simpl. rewrite Hv.
  reflexivity.
Qed.

Lemma setSystemMode_window s w :
  defaultView s = Some w →
  setSystemMode s
  = Returned tt
      (with_localStorage (delete SETTINGS_KEY (localStorage s))
         (with_subscriptions (S (subscriptions s))
            (shown (prefers_dark w) s))).
Proof.
  intros Hw. run. rewrite Hw. simpl.
  destruct (prefers_dark w); simpl; rewrite Hw; reflexivity.
Qed.

Lemma setUserDefinedMode_eq s b :
  setUserDefinedMode b s
  = Returned tt
      (with_localStorage
         (<[SETTINGS_KEY := record_text b]> (localStorage s))
         (with_settings (record b) (shown b s))).
Proof. destruct b; reflexivity. Qed.

Lemma parse_record_text b : JSON.parse (record_text b) = Some (record b).
Proof. destruct b; vm_compute; reflexivity. Qed.

(** ** C9, C10: the apply step *)

(** C9. Applying a mode is one renderer call and nothing else: dark removes
    the light-mode class from the body, light adds it; settings, storage,
    window and subscriptions stay as they were. *)
Theorem C9_setMode_mapping (b : bool) (s : State) :
  setMode (JBool b) s
  = Returned tt
      {| settings := settings s;
         localStorage := localStorage s;
         defaultView := defaultView s;
         body := if b
                 then classList_remove LIGHT_MODE_CSS_CLASS_NAME (body s)
                 else classList_add LIGHT_MODE_CSS_CLASS_NAME (body s);
         rendered := rendered s ++
                     [if b then RemoveClass LIGHT_MODE_CSS_CLASS_NAME
                      else AddClass LIGHT_MODE_CSS_CLASS_NAME];
         subscriptions := subscriptions s |}.
Proof. destruct b; reflexivity. Qed.

(** C10. Applying the same mode twice in a row leaves the body's class list,
    and so the presence of the light-mode class, as one application does. *)
Theorem C10_setMode_idempotent (b : bool) (s : State) :
  ∃ s1 s2,
    setMode (JBool b) s = Returned tt s1
    ∧ setMode (JBool b) s1 = Returned tt s2
    ∧ body s2 = body s1
    ∧ light_class_on s2 = light_class_on s1
    ∧ light_class_on s1 = negb b.
Proof.
  exists (shown b s), (shown b (shown b s)).
  rewrite !setMode_bool. split; [reflexivity|]. split; [reflexivity|].
  assert (Hb : body (shown b (shown b s)) = body (shown b s)).
  { destruct b.
    - apply classList_remove_idem.
    - apply classList_add_idem. }
  split; [exact Hb|]. unfold light_class_on. rewrite Hb.
  split; [reflexivity|]. destruct b.
  - apply classList_remove_absent.
  - apply classList_add_present.
Qed.

(** ** C1, C2: construction *)

(** C1, as worded, fails: with no stored record and a dark OS preference the
    constructor leaves the renderer alone, and the body keeps its light
    class. *)
Lemma C1_constructor_renders_nothing :
  ¬ initialize_applies_system_mode no_record_dark.
Proof.
  intros H.
  destruct (H {| prefers_dark := true |} eq_refl eq_refl)
    as (s' & Hc & Hr & _).
  vm_compute in Hc. injection Hc as <-. discriminate Hr.
Qed.

(** C1, amended. With no stored record and a window, the constructor takes
    the mode from the OS preference into the in-memory settings and starts
    the synchronization, without a renderer call; the [apply()] that follows
    shows that mode. *)
Theorem C1_constructor_follows_system (s : State) (w : Window) :
  localStorage s !! SETTINGS_KEY = None →
  defaultView s = Some w →
  let s1 := with_subscriptions (S (subscriptions s))
              (with_settings (record (prefers_dark w)) s) in
  constructor s = Returned tt s1
  ∧ rendered s1 = rendered s
  ∧ body s1 = body s
  ∧ apply s1 = Returned tt (shown (prefers_dark w) s1).
Proof.
  intros Hk Hw s1. split; [now apply constructor_absent|].
  split; [reflexivity|]. split; [reflexivity|].
  rewrite apply_eq. simpl. reflexivity.
Qed.

Lemma C1_constructor_follows_system_witness :
  localStorage no_record_dark !! SETTINGS_KEY = None
  ∧ defaultView no_record_dark = Some {| prefers_dark := true |}
  ∧ (constructor ;; apply) no_record_dark
    = Returned tt
        {| settings := record true; localStorage := ∅;
           defaultView := Some {| prefers_dark := true |};
           body := []; rendered := [RemoveClass LIGHT_MODE_CSS_CLASS_NAME];
           subscriptions := 1 |}.
Proof.
  split; [reflexivity|]. split; [reflexivity|].
  destruct (C1_constructor_follows_system no_record_dark
              {| prefers_dark := true |} eq_refl eq_refl)
    as (Hc & _ & _ & Ha).
  rewrite (bind_returned _ _ _ _ _ Hc), Ha. reflexivity.
Defined.

(** C2, as worded, fails: with the record [{darkMode: false}] stored and a
    dark body, the constructor leaves the renderer alone and the light class
    is not added. *)
Lemma C2_constructor_renders_nothing :
  ¬ initialize_applies_stored_mode stored_light.
Proof.
  intros H.
  destruct (H (record_text false) false eq_refl (parse_record_text false))
    as (s' & Hc & Hr & _).
  vm_compute in Hc. injection Hc as <-. discriminate Hr.
Qed.

(** C2, amended. A stored value that deserializes to an object becomes the
    in-memory settings; the constructor starts no synchronization and makes
    no renderer call; the [apply()] that follows shows the mode the record
    contains. *)
Theorem C2_constructor_uses_record (s : State) (text : string)
    (fields : list (string * JSValue)) :
  localStorage s !! SETTINGS_KEY = Some text →
  JSON.parse text = Some (JObject fields) →
  let s1 := with_settings (JObject fields) s in
  constructor s = Returned tt s1
  ∧ subscriptions s1 = subscriptions s
  ∧ rendered s1 = rendered s
  ∧ body s1 = body s
  ∧ apply s1 = Returned tt (shown (truthy (get_field "darkMode" fields)) s1).
Proof.
  intros Hk Hp s1. split; [now apply (constructor_stored s text)|].
  repeat (split; [reflexivity|]). apply apply_eq.
Qed.

Lemma C2_constructor_uses_record_witness :
  localStorage stored_light !! SETTINGS_KEY = Some (record_text false)
  ∧ JSON.parse (record_text false) = Some (record false)
  ∧ (constructor ;; apply) stored_light
    = Returned tt
        {| settings := record false;
           localStorage := {[ SETTINGS_KEY := record_text false ]};
           defaultView := Some {| prefers_dark := true |};
           body := [LIGHT_MODE_CSS_CLASS_NAME];
           rendered := [AddClass LIGHT_MODE_CSS_CLASS_NAME];
           subscriptions := 0 |}.
Proof.
  split; [reflexivity|]. split; [exact (parse_record_text false)|].
  destruct (C2_constructor_uses_record stored_light (record_text false)
              [("darkMode", JBool false)] eq_refl (parse_record_text false))
    as (Hc & _ & _ & _ & Ha).
  rewrite (bind_returned _ _ _ _ _ Hc), Ha. reflexivity.
Defined.

(** ** C3, C4, C5: choosing a mode *)

(** C3. With a window to ask, [setSystemMode()] shows the current OS
    preference, adds a synchronization subscription and removes the stored
    record; constructing the service on what it leaves behind does what it
    does when nothing is stored: settings from the OS preference, a
    subscription started. *)
Theorem C3_setSystemMode_follows_system (s : State) (w : Window) :
  defaultView s = Some w →
  ∃ s',
    setSystemMode s = Returned tt s'
    ∧ rendered s' = rendered s ++ [call_for (prefers_dark w)]
    ∧ body s' = classes_for (prefers_dark w) (body s)
    ∧ subscriptions s' = S (subscriptions s)
    ∧ localStorage s' = delete SETTINGS_KEY (localStorage s)
    ∧ localStorage s' !! SETTINGS_KEY = None
    ∧ constructor s'
      = Returned tt (with_subscriptions (S (subscriptions s'))
                       (with_settings (record (prefers_dark w)) s')).
Proof.
  intros Hw. eexists. split; [exact (setSystemMode_window s w Hw)|].
  repeat (split; [reflexivity|]).
  assert (Hgone : delete SETTINGS_KEY (localStorage s) !! SETTINGS_KEY = None)
    by apply lookup_delete_eq.
  split; [exact Hgone|].
  apply constructor_absent; [exact Hgone | exact Hw].
Qed.

Lemma C3_setSystemMode_follows_system_witness :
  defaultView stored_light = Some {| prefers_dark := true |}
  ∧ ∃ s',
      setSystemMode stored_light = Returned tt s'
      ∧ rendered s' = [RemoveClass LIGHT_MODE_CSS_CLASS_NAME]
      ∧ subscriptions s' = 1%nat
      ∧ localStorage s' !! SETTINGS_KEY = None
      ∧ settings (final (constructor s')) = record true.
Proof.
  split; [reflexivity|].
  destruct (C3_setSystemMode_follows_system stored_light
              {| prefers_dark := true |} eq_refl)
    as (s' & Hs & Hr & _ & Hn & _ & Hk & Hc).
  exists s'. split; [exact Hs|]. split; [exact Hr|]. split; [exact Hn|].
  split; [exact Hk|]. rewrite Hc. reflexivity.
Defined.

(** C4. [setSystemMode()] leaves the in-memory settings as they were; after
    [setUserDefinedMode(b)] and then [setSystemMode()], the settings are
    still [{darkMode: b}] and [apply()] shows [b] again, whatever the OS
    prefers. *)
Theorem C4_setSystemMode_keeps_settings (s : State) (b : bool) :
  (∃ s', setSystemMode s = Returned tt s' ∧ settings s' = settings s)
  ∧ ∃ s1 s2 s3,
      setUserDefinedMode b s = Returned tt s1
      ∧ setSystemMode s1 = Returned tt s2
      ∧ settings s2 = record b
      ∧ apply s2 = Returned tt s3
      ∧ rendered s3 = rendered s2 ++ [call_for b]
      ∧ body s3 = classes_for b (body s2).
Proof.
  assert (Hkeep : ∀ t, ∃ t', setSystemMode t = Returned tt t'
                              ∧ settings t' = settings t).
  { intros t. run. destruct (defaultView t) as [w|] eqn:Hw; simpl.
    - destruct (prefers_dark w); simpl; rewrite Hw;
        eexists; split; reflexivity.
    - rewrite Hw. eexists; split; reflexivity. }
  split; [apply Hkeep|].
  set (s1 := with_localStorage
                (<[SETTINGS_KEY := record_text b]> (localStorage s))
                (with_settings (record b) (shown b s))).
  destruct (Hkeep s1) as (s2 & Hs2 & Hset).
  exists s1, s2, (shown b s2).
  split; [apply setUserDefinedMode_eq|]. split; [exact Hs2|].
  simpl in Hset. split; [exact Hset|].
  rewrite apply_eq, Hset. repeat split; reflexivity.
Qed.

(** C5. After [setUserDefinedMode(b)] the store holds under the settings key
    the JSON text of [{darkMode: b}]; reading the key gives that text back,
    it deserializes to [{darkMode: b}], and a service constructed on that
    store ends up with those settings. *)
Theorem C5_setUserDefinedMode_roundtrip (s : State) (b : bool) :
  ∃ s',
    setUserDefinedMode b s = Returned tt s'
    ∧ JSON.stringify (record b) = Some (record_text b)
    ∧ localStorage s' !! SETTINGS_KEY = Some (record_text b)
    ∧ LocalStorage.getItem SETTINGS_KEY s'
      = Returned [Some (record_text b)] s'
    ∧ JSON.parse (record_text b) = Some (record b)
    ∧ constructor s' = Returned tt (with_settings (record b) s').
Proof.
  eexists. split; [apply setUserDefinedMode_eq|].
  assert (Hk : <[SETTINGS_KEY := record_text b]> (localStorage s)
               !! SETTINGS_KEY = Some (record_text b))
    by apply lookup_insert_eq.
  split; [destruct b; reflexivity|]. split; [exact Hk|].
  split; [run; simpl; now rewrite Hk|].
  split; [apply parse_record_text|].
  apply (constructor_stored _ (record_text b));
    [exact Hk | apply parse_record_text | reflexivity].
Qed.

(** ** C6: no window *)

(** C6. In a document without a window [isSystemDark()] returns
    [undefined], which is not the boolean [false]. *)
Theorem C6_isSystemDark_headless_undefined :
  isSystemDark headless = Returned JUndefined headless
  ∧ isSystemDark headless ≠ Returned (JBool false) headless.
Proof. split; [reflexivity | discriminate]. Qed.

(** ** C7: teardown *)

(** While a subscription is live, a change of the OS preference reaches the
    renderer. *)
Lemma change_reaches_live_subscription (s : State) (w : Window) (d : bool) :
  defaultView s = Some w → subscriptions s = 1%nat →
  ∃ s', os_preference_change d s = Returned tt s'
        ∧ rendered s' = rendered s ++ [call_for d]
        ∧ body s' = classes_for d (body s).
Proof.
  intros Hw Hn. run. simpl. rewrite Hn. simpl. run.
  destruct d; simpl; eexists; repeat split; reflexivity.
Qed.

Lemma change_without_subscription (s : State) (d : bool) :
  subscriptions s = 0%nat →
  ∃ s', os_preference_change d s = Returned tt s'
        ∧ rendered s' = rendered s ∧ body s' = body s
        ∧ subscriptions s' = 0%nat.
Proof.
  intros Hn. run. simpl. rewrite Hn. simpl.
  eexists; repeat split; [reflexivity.. | exact Hn].
Qed.

Lemma changes_without_subscription (darks : list bool) :
  ∀ s, subscriptions s = 0%nat →
  ∃ s', os_preference_changes darks s = Returned tt s'
        ∧ rendered s' = rendered s ∧ body s' = body s
        ∧ subscriptions s' = 0%nat.
Proof.
  induction darks as [|d ds IH]; intros s Hn.
  - exists s. repeat split; [reflexivity.. | exact Hn].
  - destruct (change_without_subscription s d Hn) as (s1 & H1 & Hr & Hb & H0).
    destruct (IH s1 H0) as (s2 & H2 & Hr2 & Hb2 & H02).
    exists s2. simpl. rewrite (bind_returned _ _ _ _ _ H1).
    split; [exact H2|]. split; [congruence|]. split; [congruence|].
    exact H02.
Qed.

(** C7. Once the teardown signal has fired no subscription is left, and any
    run of later OS preference changes leaves the renderer's calls and the
    body's classes exactly as they were at teardown. *)
Theorem C7_no_render_after_destroy (s : State) (darks : list bool) :
  ∃ s1 s2,
    destroy s = Returned tt s1
    ∧ subscriptions s1 = 0%nat
    ∧ os_preference_changes darks s1 = Returned tt s2
    ∧ rendered s2 = rendered s
    ∧ body s2 = body s
    ∧ subscriptions s2 = 0%nat.
Proof.
  destruct (changes_without_subscription darks (with_subscriptions 0 s)
              eq_refl) as (s2 & H2 & Hr & Hb & H0).
  exists (with_subscriptions 0 s), s2.
  split; [reflexivity|]. split; [reflexivity|]. split; [exact H2|].
  split; [exact Hr|]. split; [exact Hb | exact H0].
Qed.

(** ** C8: a stored value that is not JSON *)

(** C8, as worded, fails twice over.  The empty text is not valid JSON, yet
    the constructor takes it for an absent record and builds the settings
    from the OS preference, with no error anywhere.  A non-empty text that
    is not valid JSON does stop the subscription with a [SyntaxError], but
    the constructor returns normally: the error stays unhandled instead of
    reaching the caller. *)
Lemma C8_malformed_record_is_not_thrown :
  (JSON.parse "" = None
   ∧ constructor (stored "")
     = Returned tt
         {| settings := record true;
            localStorage := {[ SETTINGS_KEY := "" ]};
            defaultView := Some {| prefers_dark := true |};
            body := []; rendered := []; subscriptions := 1 |}
   ∧ constructor_unhandled (stored "") = None
   ∧ ¬ malformed_record_fails (stored ""))
  ∧ (JSON.parse "{darkMode}" = None
     ∧ constructor (stored "{darkMode}") = Returned tt (stored "{darkMode}")
     ∧ constructor_unhandled (stored "{darkMode}") = Some SyntaxError
     ∧ ¬ malformed_record_fails (stored "{darkMode}")).
Proof.
  split; (split; [reflexivity|]); (split; [reflexivity|]);
    (split; [reflexivity|]); intros H.
  - destruct (H "" eq_refl eq_refl) as (s' & Hc & _).
    vm_compute in Hc. discriminate Hc.
  - destruct (H "{darkMode}" eq_refl eq_refl) as (s' & Hc & _).
    vm_compute in Hc. discriminate Hc.
Qed.

(** C8, amended. A stored text that is not empty and not valid JSON makes
    the deserialization step fail: the subscription to [_getDefaultSettings]
    ends in the [SyntaxError] of [JSON.parse], which nothing in the service
    catches or recovers from, so it is left unhandled.  No fallback settings
    are built: the settings stay [undefined], no synchronization starts and
    the renderer is not called.  The constructor itself returns normally,
    and a following [apply()] runs and shows light mode. *)
Theorem C8_malformed_record_unhandled (s : State) (text : string) :
  localStorage s !! SETTINGS_KEY = Some text →
  text ≠ "" →
  JSON.parse text = None →
  _getDefaultSettings SETTINGS_KEY (with_settings JUndefined s)
  = Thrown SyntaxError (with_settings JUndefined s)
  ∧ constructor_unhandled s = Some SyntaxError
  ∧ constructor s = Returned tt (with_settings JUndefined s)
  ∧ (constructor ;; apply) s
    = Returned tt (shown false (with_settings JUndefined s)).
Proof.
  intros Hk Hne Hp.
  assert (Hg : _getDefaultSettings SETTINGS_KEY (with_settings JUndefined s)
               = Thrown SyntaxError (with_settings JUndefined s)).
  { run. simpl. rewrite Hk.
    destruct text as [|c text']; [contradiction|].
    simpl. rewrite Hp. reflexivity. }
  assert (Hc : constructor s = Returned tt (with_settings JUndefined s)).
  { unfold constructor. rewrite bind_eq.
    change (set_settings JUndefined s)
      with (Returned tt (with_settings JUndefined s)).
    unfold subscribe. now rewrite Hg. }
  split; [exact Hg|].
  split; [unfold constructor_unhandled, unhandled; now rewrite Hg|].
  split; [exact Hc|].
  rewrite (bind_returned _ _ _ _ _ Hc). apply apply_eq.
Qed.

Lemma C8_malformed_record_unhandled_witness :
  localStorage (stored "{darkMode}") !! SETTINGS_KEY = Some "{darkMode}"
  ∧ "{darkMode}" ≠ ""
  ∧ JSON.parse "{darkMode}" = None
  ∧ constructor_unhandled (stored "{darkMode}") = Some SyntaxError
  ∧ (constructor ;; apply) (stored "{darkMode}")
    = Returned tt
        {| settings := JUndefined;
           localStorage := {[ SETTINGS_KEY := "{darkMode}" ]};
           defaultView := Some {| prefers_dark := true |};
           body := [LIGHT_MODE_CSS_CLASS_NAME];
           rendered := [AddClass LIGHT_MODE_CSS_CLASS_NAME];
           subscriptions := 0 |}.
Proof.
  split; [reflexivity|]. split; [discriminate|]. split; [reflexivity|].
  destruct (C8_malformed_record_unhandled (stored "{darkMode}") "{darkMode}")
    as (_ & Hu & _ & Ha); [reflexivity | discriminate | reflexivity |].
  split; [exact Hu|]. rewrite Ha. reflexivity.
Defined.

(** * Further properties of the service *)

(** ** What each call does to the state *)

Lemma setSystemMode_no_window s :
  defaultView s = None →
  setSystemMode s
  = Returned tt
      (with_localStorage (delete SETTINGS_KEY (localStorage s))
         (shown false s)).
Proof. intros Hw. run. rewrite Hw. simpl. rewrite Hw. reflexivity. Qed.

Lemma each_on_change (d : bool) (n : nat) :
  ∀ s, each n (on_change (Some {| event_matches := d |})) s
       = Returned tt (Nat.iter n (shown d) s).
Proof.
  induction n as [|n IH]; intros s; [reflexivity|].
  simpl. rewrite bind_eq.
  assert (H1 : on_change (Some {| event_matches := d |}) s
               = Returned tt (shown d s)) by (destruct d; reflexivity).
  rewrite H1, IH. f_equal.
  clear. induction n as [|n IHn]; [reflexivity|].
  simpl. now rewrite IHn.
Qed.

Lemma os_preference_change_eq d s :
  os_preference_change d s
  = Returned tt (Nat.iter (subscriptions s) (shown d) (flipped d s)).
Proof.
  unfold os_preference_change. rewrite !bind_eq. simpl.
  apply each_on_change.
Qed.

Lemma iter_shown_frame d n s :
  settings (Nat.iter n (shown d) s) = settings s
  ∧ localStorage (Nat.iter n (shown d) s) = localStorage s
  ∧ defaultView (Nat.iter n (shown d) s) = defaultView s
  ∧ subscriptions (Nat.iter n (shown d) s) = subscriptions s
  ∧ rendered (Nat.iter n (shown d) s)
    = rendered s ++ List.repeat (call_for d) n.
Proof.
  induction n as [|n (H1 & H2 & H3 & H4 & H5)]; simpl.
  - now rewrite app_nil_r.
  - repeat (split; [assumption|]). rewrite H5, <- app_assoc. f_equal.
    clear. induction n as [|n IH]; [reflexivity|].
    simpl. now rewrite IH.
Qed.

(** The four ways the constructor can go. *)
Lemma constructor_cases s :
  (∃ text v, localStorage s !! SETTINGS_KEY = Some text ∧ text ≠ ""
             ∧ JSON.parse text = Some v ∧ truthy v = true
             ∧ constructor_unhandled s = None
             ∧ constructor s = Returned tt (with_settings v s))
  ∨ (∃ text, localStorage s !! SETTINGS_KEY = Some text ∧ text ≠ ""
             ∧ JSON.parse text = None
             ∧ constructor_unhandled s = Some SyntaxError
             ∧ constructor s = Returned tt (with_settings JUndefined s))
  ∨ ((localStorage s !! SETTINGS_KEY = None
      ∨ localStorage s !! SETTINGS_KEY = Some ""
      ∨ ∃ text v, localStorage s !! SETTINGS_KEY = Some text
                  ∧ JSON.parse text = Some v ∧ truthy v = false)
     ∧ constructor_unhandled s = None
     ∧ constructor s = Returned tt (fallback_state s)).
Proof.
  unfold fallback_state.
  destruct (localStorage s !! SETTINGS_KEY) as [text|] eqn:Hk.
  - destruct text as [|c text'].
    + right; right. split; [right; left; reflexivity|].
      split; run; simpl; rewrite Hk; simpl;
        destruct (defaultView s); reflexivity.
    + destruct (JSON.parse (String c text')) as [v|] eqn:Hp.
      * destruct (truthy v) eqn:Hv.
        -- left. exists (String c text'), v.
           repeat (split; [easy|]).
           split; run; simpl; rewrite Hk; simpl; rewrite Hp; simpl;
             rewrite Hv; reflexivity.
        -- right; right. split; [right; right; eauto|].
           split; run; simpl; rewrite Hk; simpl; rewrite Hp; simpl;
             rewrite Hv; simpl; destruct (defaultView s); reflexivity.
      * right; left. exists (String c text'). repeat (split; [easy|]).
        split; run; simpl; rewrite Hk; simpl; rewrite Hp; reflexivity.
  - right; right. split; [left; reflexivity|].
    split; run; simpl; rewrite Hk; simpl;
      destruct (defaultView s); reflexivity.
Qed.

Lemma light_class_on_shown b s : light_class_on (shown b s) = negb b.
Proof.
  unfold light_class_on. destruct b.
  - apply classList_remove_absent.
  - apply classList_add_present.
Qed.

(** ** The constructor, in every case *)

Lemma constructor_frame (s : State) :
  rendered (final (constructor s)) = rendered s
  ∧ body (final (constructor s)) = body s
  ∧ localStorage (final (constructor s)) = localStorage s
  ∧ defaultView (final (constructor s)) = defaultView s
  ∧ (subscriptions (final (constructor s)) = subscriptions s
     ∨ (subscriptions (final (constructor s)) = S (subscriptions s)
        ∧ defaultView s ≠ None)).
Proof.
  destruct (constructor_cases s)
    as [(text & v & _ & _ & _ & _ & _ & ->)
       |[(text & _ & _ & _ & _ & ->) | (_ & _ & ->)]];
    simpl; try (repeat split; try reflexivity; now left).
  unfold fallback_state. destruct (defaultView s) as [w|] eqn:Hw; simpl.
  - repeat (split; [easy|]). right. easy.
  - repeat (split; [easy|]). now left.
Qed.

(** X1. Whatever is stored and however it ends, constructing the service
    leaves the renderer's calls, the body's classes, the store and the
    window as they were; the subscriptions stay or grow by one, and they
    grow only when there is a window. *)
Theorem constructor_touches_settings_and_subscriptions_only (s : State) :
  rendered (final (constructor s)) = rendered s
  ∧ body (final (constructor s)) = body s
  ∧ localStorage (final (constructor s)) = localStorage s
  ∧ defaultView (final (constructor s)) = defaultView s
  ∧ (subscriptions (final (constructor s)) = subscriptions s
     ∨ (subscriptions (final (constructor s)) = S (subscriptions s)
        ∧ defaultView s ≠ None)).
Proof. exact (constructor_frame s). Qed.

(** X2. The constructor always returns normally.  Its subscription to
    [_getDefaultSettings] ends in an error, left unhandled, exactly when the
    value stored under the settings key is a non-empty text that is not
    valid JSON; the error is then the [SyntaxError] of [JSON.parse] and the
    settings are left [undefined]. *)
Theorem constructor_unhandled_iff (s : State) :
  (∃ s', constructor s = Returned tt s')
  ∧ ((∃ e, constructor_unhandled s = Some e)
     ↔ (∃ text, localStorage s !! SETTINGS_KEY = Some text ∧ text ≠ ""
                ∧ JSON.parse text = None))
  ∧ (∀ e, constructor_unhandled s = Some e →
          e = SyntaxError
          ∧ constructor s = Returned tt (with_settings JUndefined s)).
Proof.
  destruct (constructor_cases s)
    as [(text & v & Hk & Hne & Hp & _ & Hu & Hc)
       |[(text & Hk & Hne & Hp & Hu & Hc) | (Hcond & Hu & Hc)]].
  - split; [eauto|]. rewrite Hu. split; [split|].
    + intros (e & He). discriminate He.
    + intros (text' & Hk' & _ & Hp').
      rewrite Hk in Hk'. injection Hk' as <-. congruence.
    + intros e He. discriminate He.
  - split; [eauto|]. rewrite Hu. split; [split|].
    + intros _. eauto.
    + intros _. eauto.
    + intros e He. injection He as <-. easy.
  - split; [eauto|]. rewrite Hu. split; [split|].
    + intros (e & He). discriminate He.
    + intros (text' & Hk' & Hne' & Hp').
      destruct Hcond as [Hn|[He|(t & v & Ht & Hpv & _)]];
        rewrite Hk' in *; congruence.
    + intros e He. discriminate He.
Qed.

(** X3. A stored text that is valid JSON for a falsy value ([null],
    [false], [0], an empty string literal) is dropped like an absent one:
    the settings come from the OS preference and, with a window, the
    synchronization starts. *)
Theorem constructor_falsy_value_falls_back (s : State) (text : string)
    (v : JSValue) :
  localStorage s !! SETTINGS_KEY = Some text →
  JSON.parse text = Some v →
  truthy v = false →
  constructor s = Returned tt (fallback_state s).
Proof.
  intros Hk Hp Hv.
  destruct (constructor_cases s)
    as [(text' & v' & Hk' & _ & Hp' & Hv' & _)
       |[(text' & Hk' & _ & Hp' & _) | (_ & _ & Hc)]].
  - rewrite Hk in Hk'. injection Hk' as <-. congruence.
  - rewrite Hk in Hk'. injection Hk' as <-. congruence.
  - exact Hc.
Qed.

Lemma constructor_falsy_value_falls_back_witness :
  localStorage (stored "null") !! SETTINGS_KEY = Some "null"
  ∧ JSON.parse "null" = Some JNull
  ∧ truthy JNull = false
  ∧ constructor (stored "null")
    = Returned tt
        {| settings := record true;
           localStorage := {[ SETTINGS_KEY := "null" ]};
           defaultView := Some {| prefers_dark := true |};
           body := []; rendered := []; subscriptions := 1 |}.
Proof.
  split; [reflexivity|]. split; [reflexivity|]. split; [reflexivity|].
  apply (constructor_falsy_value_falls_back (stored "null") "null" JNull);
    reflexivity.
Defined.

(** X4. Without a window and without a stored record the constructor
    leaves settings whose [darkMode] is [undefined] and starts no
    synchronization; [apply()] then shows light mode. *)
Theorem constructor_without_window (s : State) :
  localStorage s !! SETTINGS_KEY = None →
  defaultView s = None →
  let s1 := with_settings (JObject [("darkMode", JUndefined)]) s in
  constructor s = Returned tt s1
  ∧ subscriptions s1 = subscriptions s
  ∧ apply s1 = Returned tt (shown false s1).
Proof.
  intros Hk Hw s1.
  destruct (constructor_cases s)
    as [(text & v & Hk' & _)|[(text & Hk' & _) | (_ & _ & Hc)]];
    try congruence.
  unfold fallback_state in Hc. rewrite Hw in Hc.
  split; [exact Hc|]. split; [reflexivity|]. apply apply_eq.
Qed.

Lemma constructor_without_window_witness :
  localStorage headless !! SETTINGS_KEY = None
  ∧ defaultView headless = None
  ∧ (constructor ;; apply) headless
    = Returned tt
        {| settings := JObject [("darkMode", JUndefined)];
           localStorage := ∅; defaultView := None;
           body := [LIGHT_MODE_CSS_CLASS_NAME];
           rendered := [AddClass LIGHT_MODE_CSS_CLASS_NAME];
           subscriptions := 0 |}.
Proof.
  split; [reflexivity|]. split; [reflexivity|].
  destruct (constructor_without_window headless eq_refl eq_refl)
    as (Hc & _ & Ha).
  rewrite (bind_returned _ _ _ _ _ Hc), Ha. reflexivity.
Defined.

(** ** Choosing a mode, further *)

(** X5. Without a window [setSystemMode()] shows light mode, starts no
    synchronization and still removes the stored record. *)
Theorem setSystemMode_without_window (s : State) :
  defaultView s = None →
  ∃ s',
    setSystemMode s = Returned tt s'
    ∧ rendered s' = rendered s ++ [AddClass LIGHT_MODE_CSS_CLASS_NAME]
    ∧ light_class_on s' = true
    ∧ subscriptions s' = subscriptions s
    ∧ settings s' = settings s
    ∧ localStorage s' !! SETTINGS_KEY = None.
Proof.
  intros Hw. eexists. split; [exact (setSystemMode_no_window s Hw)|].
  split; [reflexivity|].
  split; [apply (light_class_on_shown false s)|].
  split; [reflexivity|]. split; [reflexivity|].
  apply lookup_delete_eq.
Qed.

Lemma setSystemMode_without_window_witness :
  defaultView headless = None
  ∧ ∃ s',
      setSystemMode headless = Returned tt s'
      ∧ rendered s' = [AddClass LIGHT_MODE_CSS_CLASS_NAME]
      ∧ subscriptions s' = 0%nat.
Proof.
  split; [reflexivity|].
  destruct (setSystemMode_without_window headless eq_refl)
    as (s' & Hs & Hr & _ & Hn & _).
  exists s'. split; [exact Hs|]. split; [exact Hr | exact Hn].
Defined.

(** X6. Two [setUserDefinedMode] calls in a row: the later one wins.  The
    settings, the stored text and the presence of the light-mode class are
    those of the second call alone, and the store is the very map the
    second call alone would leave. *)
Theorem setUserDefinedMode_last_wins (s : State) (b1 b2 : bool) :
  ∃ s1 s2 s2',
    setUserDefinedMode b1 s = Returned tt s1
    ∧ setUserDefinedMode b2 s1 = Returned tt s2
    ∧ setUserDefinedMode b2 s = Returned tt s2'
    ∧ settings s2 = settings s2'
    ∧ localStorage s2 = localStorage s2'
    ∧ light_class_on s2 = light_class_on s2'
    ∧ rendered s2 = rendered s ++ [call_for b1; call_for b2].
Proof.
  do 3 eexists. rewrite !setUserDefinedMode_eq.
  split; [reflexivity|]. split; [reflexivity|]. split; [reflexivity|].
  split; [reflexivity|].
  split; [apply insert_insert_eq|].
  split.
  - change (light_class_on (shown b2 (shown b1 s))
            = light_class_on (shown b2 s)).
    now rewrite !light_class_on_shown.
  - simpl. now rewrite <- app_assoc.
Qed.

(** X7. What [setDarkMode()] and [setLightMode()] store outlives the
    instance: a service constructed afterwards takes the stored mode,
    starts no synchronization, and its [apply()] shows that mode, whatever
    the OS prefers. *)
Theorem setDarkMode_setLightMode_persist (s : State) :
  (∃ s1 s2 s3,
     setDarkMode s = Returned tt s1
     ∧ constructor s1 = Returned tt s2
     ∧ settings s2 = record true
     ∧ subscriptions s2 = subscriptions s
     ∧ apply s2 = Returned tt s3
     ∧ light_class_on s3 = false)
  ∧ (∃ s1 s2 s3,
       setLightMode s = Returned tt s1
       ∧ constructor s1 = Returned tt s2
       ∧ settings s2 = record false
       ∧ subscriptions s2 = subscriptions s
       ∧ apply s2 = Returned tt s3
       ∧ light_class_on s3 = true).
Proof.
  assert (H : ∀ b, ∃ s1 s2 s3,
             setUserDefinedMode b s = Returned tt s1
             ∧ constructor s1 = Returned tt s2
             ∧ settings s2 = record b
             ∧ subscriptions s2 = subscriptions s
             ∧ apply s2 = Returned tt s3
             ∧ light_class_on s3 = negb b).
  { intros b. do 3 eexists. split; [apply setUserDefinedMode_eq|].
    split.
    { apply (constructor_stored _ (record_text b) (record b));
        [apply lookup_insert_eq | apply parse_record_text | reflexivity]. }
    split; [reflexivity|]. split; [reflexivity|].
    split; [apply apply_eq|].
    simpl settings. rewrite light_class_on_shown. now destruct b. }
  split; [apply (H true) | apply (H false)].
Qed.

(** ** Changes of the OS preference *)

(** A change of the OS preference makes one renderer call per live
    subscription, all for the new mode; nothing is debounced or merged. *)
Lemma os_preference_change_calls_each_subscription (s : State) (d : bool) :
  ∃ s',
    os_preference_change d s = Returned tt s'
    ∧ rendered s' = rendered s ++ List.repeat (call_for d) (subscriptions s)
    ∧ subscriptions s' = subscriptions s.
Proof.
  eexists. split; [apply os_preference_change_eq|].
  destruct (iter_shown_frame d (subscriptions s) (flipped d s))
    as (_ & _ & _ & H4 & H5).
  split; [exact H5 | exact H4].
Qed.

(** X8. [setSystemMode()] never ends an earlier subscription: called twice
    on a page with a window it leaves two more, and one change of the OS
    preference then reaches the renderer once for each. *)
Theorem setSystemMode_stacks_subscriptions (s : State) (w : Window) :
  defaultView s = Some w →
  ∃ s1 s2,
    setSystemMode s = Returned tt s1
    ∧ setSystemMode s1 = Returned tt s2
    ∧ subscriptions s2 = S (S (subscriptions s))
    ∧ ∀ d, rendered (final (os_preference_change d s2))
           = rendered s2
             ++ List.repeat (call_for d) (S (S (subscriptions s))).
Proof.
  intros Hw. do 2 eexists.
  split; [exact (setSystemMode_window s w Hw)|].
  split; [apply (setSystemMode_window _ w); exact Hw|].
  split; [reflexivity|].
  intros d. rewrite os_preference_change_eq.
  match goal with
  | |- rendered (final (Returned tt (Nat.iter ?n _ ?t))) = _ =>
      destruct (iter_shown_frame d n t) as (_ & _ & _ & _ & H5)
  end.
  exact H5.
Qed.

Lemma setSystemMode_stacks_subscriptions_witness :
  defaultView no_record_dark = Some {| prefers_dark := true |}
  ∧ rendered
      (final ((setSystemMode ;; setSystemMode ;; os_preference_change false)
                no_record_dark))
    = [RemoveClass LIGHT_MODE_CSS_CLASS_NAME;
       RemoveClass LIGHT_MODE_CSS_CLASS_NAME;
       AddClass LIGHT_MODE_CSS_CLASS_NAME;
       AddClass LIGHT_MODE_CSS_CLASS_NAME].
Proof.
  split; [reflexivity|].
  destruct (setSystemMode_stacks_subscriptions no_record_dark
              {| prefers_dark := true |} eq_refl)
    as (s1 & s2 & H1 & H2 & _ & Hd).
  rewrite (bind_returned _ _ _ _ _ H1), (bind_returned _ _ _ _ _ H2).
  rewrite (Hd false).
  vm_compute in H1. injection H1 as <-.
  vm_compute in H2. injection H2 as <-.
  reflexivity.
Defined.

(** X9. A change of the OS preference is shown but not remembered: the
    settings and the store stay as they were, so the next [apply()] shows
    the mode of the settings again, not the one the OS now prefers. *)
Theorem os_preference_change_keeps_settings (s : State) (d : bool) :
  ∃ s1,
    os_preference_change d s = Returned tt s1
    ∧ settings s1 = settings s
    ∧ localStorage s1 = localStorage s
    ∧ apply s1
      = Returned tt (shown (truthy (opt_get (settings s) "darkMode")) s1).
Proof.
  eexists. split; [apply os_preference_change_eq|].
  destruct (iter_shown_frame d (subscriptions s) (flipped d s))
    as (H1 & H2 & _).
  split; [exact H1|]. split; [exact H2|].
  rewrite apply_eq, H1. reflexivity.
Qed.

(** ** Any sequence of calls *)

Lemma perform_all_related (R : State → State → Prop) :
  (∀ s, R s s) →
  (∀ s1 s2 s3, R s1 s2 → R s2 s3 → R s1 s3) →
  (∀ c s, R s (final (perform c s))) →
  ∀ cs s, R s (final (perform_all cs s)).
Proof.
  intros Hrefl Htrans Hstep cs.
  induction cs as [|c cs IH]; intros s; [apply Hrefl|].
  simpl. rewrite bind_eq. specialize (Hstep c s).
  destruct (perform c s) as [[] s1|e s1]; simpl in *.
  - exact (Htrans _ _ _ Hstep (IH s1)).
  - exact Hstep.
Qed.

Lemma perform_all_kept (I : State → Prop) :
  (∀ c s, I s → ∃ s', perform c s = Returned tt s' ∧ I s') →
  ∀ cs s, I s → ∃ s', perform_all cs s = Returned tt s' ∧ I s'.
Proof.
  intros Hstep cs. induction cs as [|c cs IH]; intros s Hs.
  - exists s. easy.
  - destruct (Hstep c s Hs) as (s1 & H1 & HI).
    destruct (IH s1 HI) as (s2 & H2 & HI2).
    exists s2. simpl. now rewrite (bind_returned _ _ _ _ _ H1).
Qed.

(** The state a call ends in, call by call. *)
Lemma perform_final (c : Call) (s : State) :
  match c with
  | New => final (perform c s) = final (constructor s)
  | Apply =>
      perform c s
      = Returned tt (shown (truthy (opt_get (settings s) "darkMode")) s)
  | SetSystemMode =>
      ∃ d n,
        perform c s
        = Returned tt
            (with_localStorage (delete SETTINGS_KEY (localStorage s))
               (with_subscriptions n (shown d s)))
        ∧ (n = subscriptions s ∨ (n = S (subscriptions s)
                                  ∧ defaultView s ≠ None))
  | SetUserDefinedMode b =>
      perform c s
      = Returned tt
          (with_localStorage
             (<[SETTINGS_KEY := record_text b]> (localStorage s))
             (with_settings (record b) (shown b s)))
  | SetLightMode =>
      perform c s
      = Returned tt
          (with_localStorage
             (<[SETTINGS_KEY := record_text false]> (localStorage s))
             (with_settings (record false) (shown false s)))
  | SetDarkMode =>
      perform c s
      = Returned tt
          (with_localStorage
             (<[SETTINGS_KEY := record_text true]> (localStorage s))
             (with_settings (record true) (shown true s)))
  | OsChange d =>
      perform c s
      = Returned tt (Nat.iter (subscriptions s) (shown d) (flipped d s))
  | Destroy => perform c s = Returned tt (with_subscriptions 0 s)
  end.
Proof.
  destruct c; simpl.
  - reflexivity.
  - apply apply_eq.
  - destruct (defaultView s) as [w|] eqn:Hw.
    + exists (prefers_dark w), (S (subscriptions s)).
      split; [exact (setSystemMode_window s w Hw)|]. right. easy.
    + exists false, (subscriptions s).
      split; [|now left]. rewrite (setSystemMode_no_window s Hw).
      destruct s; reflexivity.
  - apply setUserDefinedMode_eq.
  - apply (setUserDefinedMode_eq s false).
  - apply (setUserDefinedMode_eq s true).
  - apply os_preference_change_eq.
  - reflexivity.
Qed.

Lemma classList_remove_classes_for b cl :
  classList_remove LIGHT_MODE_CSS_CLASS_NAME (classes_for b cl)
  = classList_remove LIGHT_MODE_CSS_CLASS_NAME cl.
Proof.
  destruct b; [apply classList_remove_idem|].
  unfold classes_for, classList_add.
  destruct (existsb _ cl); [reflexivity|].
  unfold classList_remove. rewrite List.filter_app.
  cbn [List.filter]. rewrite String.eqb_refl. apply app_nil_r.
Qed.

Lemma iter_shown_other_classes d n s :
  classList_remove LIGHT_MODE_CSS_CLASS_NAME (body (Nat.iter n (shown d) s))
  = classList_remove LIGHT_MODE_CSS_CLASS_NAME (body s).
Proof.
  induction n as [|n IH]; [reflexivity|].
  cbn [Nat.iter]. etransitivity; [|exact IH].
  apply classList_remove_classes_for.
Qed.

(** X10. No sequence of calls touches another class of the body: the
    classes other than the light-mode one stay the same, in the same
    order. *)
Theorem other_classes_untouched (cs : list Call) (s : State) :
  classList_remove LIGHT_MODE_CSS_CLASS_NAME
    (body (final (perform_all cs s)))
  = classList_remove LIGHT_MODE_CSS_CLASS_NAME (body s).
Proof.
  apply (perform_all_related
           (fun a b =>
              classList_remove LIGHT_MODE_CSS_CLASS_NAME (body b)
              = classList_remove LIGHT_MODE_CSS_CLASS_NAME (body a)));
    [reflexivity | intros; congruence |].
  clear. intros c s. pose proof (perform_final c s) as H.
  destruct c.
  - rewrite H. now destruct (constructor_frame s) as (_ & -> & _).
  - rewrite H. exact (classList_remove_classes_for _ (body s)).
  - destruct H as (d & n & -> & _).
    exact (classList_remove_classes_for d (body s)).
  - rewrite H. exact (classList_remove_classes_for darkMode (body s)).
  - rewrite H. exact (classList_remove_classes_for false (body s)).
  - rewrite H. exact (classList_remove_classes_for true (body s)).
  - rewrite H.
    exact (iter_shown_other_classes dark (subscriptions s) (flipped dark s)).
  - rewrite H. reflexivity.
Qed.

(** X11. No sequence of calls touches another key of the store. *)
Theorem other_keys_untouched (cs : list Call) (s : State) (k : string) :
  k ≠ SETTINGS_KEY →
  localStorage (final (perform_all cs s)) !! k = localStorage s !! k.
Proof.
  intros Hk.
  apply (perform_all_related
           (fun a b => localStorage b !! k = localStorage a !! k));
    [reflexivity | intros; congruence |].
  clear cs s. intros c s. pose proof (perform_final c s) as H.
  assert (Hins : ∀ v, <[SETTINGS_KEY := v]> (localStorage s) !! k
                      = localStorage s !! k)
    by (intros v; apply lookup_insert_ne; congruence).
  destruct c.
  - rewrite H. now destruct (constructor_frame s) as (_ & _ & -> & _).
  - rewrite H. reflexivity.
  - destruct H as (d & n & -> & _).
    apply (lookup_delete_ne (localStorage s)). congruence.
  - rewrite H. apply Hins.
  - rewrite H. apply Hins.
  - rewrite H. apply Hins.
  - rewrite H.
    destruct (iter_shown_frame dark (subscriptions s) (flipped dark s))
      as (_ & Hl & _).
    cbn [final]. now rewrite Hl.
  - rewrite H. reflexivity.
Qed.

Lemma other_keys_untouched_witness :
  "token" ≠ SETTINGS_KEY
  ∧ localStorage
      (final (perform_all [SetDarkMode; SetSystemMode; New; OsChange true]
                busy_page)) !! "token"
    = Some "abc".
Proof.
  split; [discriminate|].
  rewrite (other_keys_untouched _ busy_page "token"); [reflexivity|].
  discriminate.
Defined.

Lemma on_light_class_call_for b : on_light_class (call_for b).
Proof. destruct b; [right | left]; reflexivity. Qed.

Lemma in_sync_shown b s : in_sync (shown b s).
Proof.
  unfold in_sync.
  change (rendered (shown b s)) with (rendered s ++ [call_for b]).
  rewrite last_snoc.
  destruct b; exact (light_class_on_shown _ s).
Qed.

Lemma in_sync_same s s' :
  rendered s' = rendered s → body s' = body s → in_sync s → in_sync s'.
Proof.
  unfold in_sync, light_class_on. intros -> ->. exact id.
Qed.

Lemma in_sync_iter d n s :
  in_sync s → in_sync (Nat.iter n (shown d) s).
Proof. destruct n; [exact id | intros _; apply in_sync_shown]. Qed.

(** X12. Over any sequence of calls the renderer is only ever asked about
    the light-mode class of the body, and if the body's light-mode class
    agreed with the latest renderer call at the start, it does at the end. *)
Theorem renderer_calls_only_light_class (cs : list Call) (s : State) :
  in_sync s →
  ∃ calls,
    rendered (final (perform_all cs s)) = rendered s ++ calls
    ∧ Forall on_light_class calls
    ∧ in_sync (final (perform_all cs s)).
Proof.
  intros Hs.
  pose (R := fun a b : State =>
               ∃ l, rendered b = rendered a ++ l
                    ∧ Forall on_light_class l
                    ∧ (in_sync a → in_sync b)).
  assert (H : R s (final (perform_all cs s))).
  { apply perform_all_related; clear.
    - intros s. exists []. rewrite app_nil_r. easy.
    - intros s1 s2 s3 (l1 & E1 & F1 & I1) (l2 & E2 & F2 & I2).
      exists (l1 ++ l2). rewrite E2, E1, <- app_assoc.
      split; [reflexivity|]. split; [now apply Forall_app|]. auto.
    - intros c s. pose proof (perform_final c s) as H.
      assert (One : ∀ b t, rendered t = rendered (shown b s) →
                           body t = body (shown b s) → R s t).
      { intros b t Hr Hb. exists [call_for b].
        split; [exact Hr|].
        split; [constructor; [apply on_light_class_call_for | constructor]|].
        intros _. exact (in_sync_same _ _ Hr Hb (in_sync_shown b s)). }
      destruct c.
      + rewrite H. destruct (constructor_frame s) as (Hr & Hb & _).
        exists []. rewrite app_nil_r. split; [exact Hr|].
        split; [constructor|]. now apply in_sync_same.
      + rewrite H. now apply (One _ _ eq_refl).
      + destruct H as (d & n & -> & _). now apply (One d _ eq_refl).
      + rewrite H. now apply (One darkMode _ eq_refl).
      + rewrite H. now apply (One false _ eq_refl).
      + rewrite H. now apply (One true _ eq_refl).
      + rewrite H. cbn [final].
        destruct (iter_shown_frame dark (subscriptions s) (flipped dark s))
          as (_ & _ & _ & _ & Hr).
        exists (List.repeat (call_for dark) (subscriptions s)).
        split; [exact Hr|]. split.
        * apply List.Forall_forall. intros x Hx.
          apply List.repeat_spec in Hx. subst x.
          apply on_light_class_call_for.
        * intros Hi. apply in_sync_iter.
          exact (in_sync_same s (flipped dark s) eq_refl eq_refl Hi).
      + rewrite H. exists []. rewrite app_nil_r. split; [reflexivity|].
        split; [constructor|]. exact id. }
  destruct H as (l & E & F & I). exists l. auto.
Qed.

Lemma renderer_calls_only_light_class_witness :
  in_sync busy_page
  ∧ ∃ calls,
      rendered (final (perform_all [SetSystemMode; OsChange true; Apply]
                         busy_page))
      = calls
      ∧ Forall on_light_class calls
      ∧ in_sync (final (perform_all [SetSystemMode; OsChange true; Apply]
                          busy_page)).
Proof.
  split; [exact I|].
  destruct (renderer_calls_only_light_class
              [SetSystemMode; OsChange true; Apply] busy_page I)
    as (calls & E & F & S).
  exists calls. split; [exact E|]. split; [exact F | exact S].
Defined.

(** ** A store that only the service writes *)

Lemma perform_written (c : Call) (s : State) :
  written_by_service s →
  ∃ s', perform c s = Returned tt s' ∧ written_by_service s'.
Proof.
  intros Hs. pose proof (perform_final c s) as H.
  assert (Hins : ∀ b t, localStorage t
                        = <[SETTINGS_KEY := record_text b]> (localStorage s)
                        → written_by_service t).
  { intros b t Ht. right. exists b. rewrite Ht. apply lookup_insert_eq. }
  destruct c.
  - clear H. simpl.
    destruct (constructor_cases s)
      as [(text & v & _ & _ & _ & _ & _ & Hc)
         |[(text & Hk & _ & Hp & _) | (_ & _ & Hc)]].
    + eexists. split; [exact Hc|]. exact Hs.
    + exfalso. destruct Hs as [Hn|(b & Hb)]; [congruence|].
      rewrite Hk in Hb. injection Hb as ->.
      rewrite parse_record_text in Hp. discriminate Hp.
    + eexists. split; [exact Hc|].
      unfold written_by_service, fallback_state.
      destruct (defaultView s); exact Hs.
  - eexists. split; [exact H|]. exact Hs.
  - destruct H as (d & n & H & _). eexists. split; [exact H|].
    left. apply (lookup_delete_eq (localStorage s)).
  - eexists. split; [exact H|]. now apply (Hins darkMode).
  - eexists. split; [exact H|]. now apply (Hins false).
  - eexists. split; [exact H|]. now apply (Hins true).
  - eexists. split; [exact H|]. unfold written_by_service.
    destruct (iter_shown_frame dark (subscriptions s) (flipped dark s))
      as (_ & -> & _).
    exact Hs.
  - eexists. split; [exact H|]. exact Hs.
Qed.

(** X13. When the value under the settings key is absent or was written by
    the service, no sequence of calls ends in an error, and the value is
    still absent or a record of the service afterwards: the service never
    trips over what it stored itself. *)
Theorem own_store_never_fails (cs : list Call) (s : State) :
  written_by_service s →
  ∃ s', perform_all cs s = Returned tt s' ∧ written_by_service s'.
Proof. apply perform_all_kept. exact perform_written. Qed.

Lemma own_store_never_fails_witness :
  written_by_service busy_page
  ∧ ∃ s',
      perform_all [New; SetLightMode; New; SetSystemMode; New] busy_page
      = Returned tt s'
      ∧ written_by_service s'.
Proof.
  assert (H : written_by_service busy_page)
    by (right; exists true; reflexivity).
  split; [exact H|].
  exact (own_store_never_fails
           [New; SetLightMode; New; SetSystemMode; New] busy_page H).
Defined.

Lemma perform_resolved (c : Call) (s : State) :
  defaultView s ≠ None → written_by_service s →
  (c = New ∨ ∃ b, settings s = record b) →
  ∃ s', perform c s = Returned tt s' ∧ resolved s'.
Proof.
  intros Hw Hs Hb.
  destruct (perform_written c s Hs) as (s' & Hp & Hs').
  exists s'. split; [exact Hp|].
  assert (Hold : c ≠ New → ∃ b, settings s = record b).
  { intros Hc. destruct Hb as [Hb|Hb]; [contradiction | exact Hb]. }
  pose proof (perform_final c s) as H.
  destruct c.
  - clear Hb Hold H. simpl in Hp.
    destruct (constructor_cases s)
      as [(text & v & Hk & _ & Hv & _ & _ & Hc)
         |[(text & Hk & _ & Hv & _ & Hc) | (_ & _ & Hc)]];
      rewrite Hc in Hp; injection Hp as <-.
    + split; [exact Hw|]. split; [exact Hs'|].
      destruct Hs as [Hn|(b & Hr)]; [congruence|].
      rewrite Hk in Hr. injection Hr as ->.
      rewrite parse_record_text in Hv. injection Hv as <-. now exists b.
    + exfalso. destruct Hs as [Hn|(b & Hr)]; [congruence|].
      rewrite Hk in Hr. injection Hr as ->.
      rewrite parse_record_text in Hv. discriminate Hv.
    + split; [|split; [exact Hs'|]]; unfold fallback_state;
        destruct (defaultView s) as [w|] eqn:E; try congruence.
      * simpl. now rewrite E.
      * now exists (prefers_dark w).
  - rewrite Hp in H. injection H as ->.
    split; [exact Hw|]. split; [exact Hs'|]. now apply Hold.
  - destruct H as (d & n & H & _). rewrite Hp in H. injection H as ->.
    split; [exact Hw|]. split; [exact Hs'|]. now apply Hold.
  - rewrite Hp in H. injection H as ->.
    split; [exact Hw|]. split; [exact Hs'|]. now exists darkMode.
  - rewrite Hp in H. injection H as ->.
    split; [exact Hw|]. split; [exact Hs'|]. now exists false.
  - rewrite Hp in H. injection H as ->.
    split; [exact Hw|]. split; [exact Hs'|]. now exists true.
  - rewrite Hp in H. injection H as ->.
    destruct (iter_shown_frame dark (subscriptions s) (flipped dark s))
      as (Hset & _ & Hview & _).
    split; [|split; [exact Hs'|]].
    + rewrite Hview. unfold flipped. simpl.
      destruct (defaultView s); [discriminate | exact Hw].
    + rewrite Hset. now apply Hold.
  - rewrite Hp in H. injection H as ->.
    split; [exact Hw|]. split; [exact Hs'|]. now apply Hold.
Qed.

(** X14. In a page with a window, on a store that only the service writes,
    the settings of a newly constructed service are a record with a definite
    boolean [darkMode], and they remain one through any sequence of calls;
    none of the calls ends in an error. *)
Theorem settings_stay_resolved (cs : list Call) (s : State) :
  defaultView s ≠ None →
  written_by_service s →
  ∃ s' b, perform_all (New :: cs) s = Returned tt s' ∧ settings s' = record b.
Proof.
  intros Hw Hs.
  destruct (perform_resolved New s Hw Hs (or_introl eq_refl))
    as (s1 & H1 & R1).
  destruct (perform_all_kept resolved) with (cs := cs) (s := s1)
    as (s2 & H2 & (_ & _ & b & Hb)); [|exact R1|].
  - intros c t (Tw & Ts & Tb). apply perform_resolved; auto.
  - exists s2, b. split; [|exact Hb].
    change (perform_all (New :: cs)) with (perform New ;; perform_all cs).
    now rewrite (bind_returned _ _ _ _ _ H1).
Qed.

Lemma settings_stay_resolved_witness :
  defaultView busy_page ≠ None
  ∧ written_by_service busy_page
  ∧ ∃ s' b,
      perform_all [New; OsChange true; SetSystemMode; Apply] busy_page
      = Returned tt s'
      ∧ settings s' = record b.
Proof.
  assert (Hw : defaultView busy_page ≠ None) by discriminate.
  assert (Hs : written_by_service busy_page)
    by (right; exists true; reflexivity).
  split; [exact Hw|]. split; [exact Hs|].
  exact (settings_stay_resolved [OsChange true; SetSystemMode; Apply]
           busy_page Hw Hs).
Defined.

(** ** A document without a window *)

(** X15. In a document without a window no sequence of calls ever starts a
    synchronization: the number of subscriptions never grows. *)
Theorem no_window_no_subscription (cs : list Call) (s : State) :
  defaultView s = None →
  defaultView (final (perform_all cs s)) = None
  ∧ (subscriptions (final (perform_all cs s)) <= subscriptions s)%nat.
Proof.
  apply (perform_all_related
           (fun a b => defaultView a = None →
                       defaultView b = None
                       ∧ (subscriptions b <= subscriptions a)%nat)).
  - intros t Ht. split; [exact Ht | lia].
  - intros s1 s2 s3 H12 H23 H1.
    destruct (H12 H1) as (H2 & L2). destruct (H23 H2) as (H3 & L3).
    split; [exact H3 | lia].
  - clear. intros c s Hw. pose proof (perform_final c s) as H.
    destruct c.
    + rewrite H. destruct (constructor_frame s) as (_ & _ & _ & -> & Hn).
      split; [exact Hw|]. destruct Hn as [->|(_ & Hne)]; [lia | congruence].
    + rewrite H. split; [exact Hw | simpl; lia].
    + destruct H as (d & n & -> & Hn). split; [exact Hw|]. simpl.
      destruct Hn as [->|(_ & Hne)]; [lia | congruence].
    + rewrite H. split; [exact Hw | simpl; lia].
    + rewrite H. split; [exact Hw | simpl; lia].
    + rewrite H. split; [exact Hw | simpl; lia].
    + rewrite H. cbn [final].
      destruct (iter_shown_frame dark (subscriptions s) (flipped dark s))
        as (_ & _ & -> & -> & _).
      unfold flipped. simpl. rewrite Hw. split; [reflexivity | lia].
    + rewrite H. split; [exact Hw | simpl; lia].
Qed.

Lemma no_window_no_subscription_witness :
  defaultView headless = None
  ∧ subscriptions
      (final (perform_all [New; SetSystemMode; SetDarkMode; SetSystemMode]
                headless))
    = 0%nat.
Proof.
  split; [reflexivity|].
  destruct (no_window_no_subscription
              [New; SetSystemMode; SetDarkMode; SetSystemMode] headless
              eq_refl) as (_ & H).
  change (subscriptions headless) with 0%nat in H.
  apply Nat.le_0_r. exact H.
Defined.

(** ** Following the OS, or not *)

Lemma light_class_on_iter d n s :
  n ≠ 0%nat → light_class_on (Nat.iter n (shown d) s) = negb d.
Proof.
  destruct n as [|n]; [congruence|]. intros _. cbn [Nat.iter].
  apply light_class_on_shown.
Qed.

Lemma os_preference_change_live (s : State) (d : bool) :
  subscriptions s ≠ 0%nat →
  ∃ s', os_preference_change d s = Returned tt s'
        ∧ light_class_on s' = negb d
        ∧ settings s' = settings s
        ∧ localStorage s' = localStorage s
        ∧ defaultView s' = defaultView (flipped d s).
Proof.
  intros Hn. eexists. split; [apply os_preference_change_eq|].
  destruct (iter_shown_frame d (subscriptions s) (flipped d s))
    as (H1 & H2 & H3 & _).
  split; [now apply light_class_on_iter|]. easy.
Qed.

(** X16. While the service follows the OS, the page tracks it: after a
    constructor run that found no record, and after [setSystemMode()], a
    change of the OS preference leaves the body showing the new mode, and
    [isSystemDark()] reports it. *)
Theorem following_system_tracks_os (s : State) (w : Window) (d : bool) :
  defaultView s = Some w →
  (localStorage s !! SETTINGS_KEY = None →
   ∃ s1 s2,
     constructor s = Returned tt s1
     ∧ os_preference_change d s1 = Returned tt s2
     ∧ light_class_on s2 = negb d
     ∧ isSystemDark s2 = Returned (JBool d) s2)
  ∧ ∃ s1 s2,
      setSystemMode s = Returned tt s1
      ∧ os_preference_change d s1 = Returned tt s2
      ∧ light_class_on s2 = negb d
      ∧ isSystemDark s2 = Returned (JBool d) s2.
Proof.
  intros Hw.
  assert (Hlive : ∀ t, defaultView t = Some w →
                       subscriptions t ≠ 0%nat →
                       ∃ s2, os_preference_change d t = Returned tt s2
                             ∧ light_class_on s2 = negb d
                             ∧ isSystemDark s2 = Returned (JBool d) s2).
  { intros t Ht Hn.
    destruct (os_preference_change_live t d Hn) as (s2 & H & L & _ & _ & V).
    exists s2. split; [exact H|]. split; [exact L|].
    apply (isSystemDark_window s2 {| prefers_dark := d |}).
    rewrite V. unfold flipped. simpl. now rewrite Ht. }
  split.
  - intros Hk. eexists.
    destruct (Hlive (with_subscriptions (S (subscriptions s))
                       (with_settings (record (prefers_dark w)) s)))
      as (s2 & H2); [exact Hw | discriminate |].
    exists s2. split; [exact (constructor_absent s w Hk Hw) | exact H2].
  - eexists.
    destruct (Hlive (with_localStorage
                       (delete SETTINGS_KEY (localStorage s))
                       (with_subscriptions (S (subscriptions s))
                          (shown (prefers_dark w) s))))
      as (s2 & H2); [exact Hw | discriminate |].
    exists s2. split; [exact (setSystemMode_window s w Hw) | exact H2].
Qed.

Lemma following_system_tracks_os_witness :
  defaultView no_record_dark = Some {| prefers_dark := true |}
  ∧ localStorage no_record_dark !! SETTINGS_KEY = None
  ∧ light_class_on
      (final ((constructor ;; os_preference_change false) no_record_dark))
    = true.
Proof.
  split; [reflexivity|]. split; [reflexivity|].
  destruct (following_system_tracks_os no_record_dark
              {| prefers_dark := true |} false eq_refl)
    as (Hc & _).
  destruct (Hc eq_refl) as (s1 & s2 & H1 & H2 & L & _).
  rewrite (bind_returned _ _ _ _ _ H1), H2. exact L.
Defined.

(** X17. A stored record switches the tracking off for a page that starts
    without subscriptions: the constructor subscribes to nothing, and no run
    of OS preference changes reaches the renderer or the body. *)
Theorem stored_record_ignores_os (s : State) (text : string)
    (fields : list (string * JSValue)) (darks : list bool) :
  localStorage s !! SETTINGS_KEY = Some text →
  JSON.parse text = Some (JObject fields) →
  subscriptions s = 0%nat →
  ∃ s1 s2,
    constructor s = Returned tt s1
    ∧ os_preference_changes darks s1 = Returned tt s2
    ∧ rendered s2 = rendered s
    ∧ body s2 = body s
    ∧ settings s2 = JObject fields.
Proof.
  intros Hk Hp Hn.
  pose proof (constructor_stored s text (JObject fields) Hk Hp eq_refl)
    as Hc.
  assert (Hset : ∀ ds t, subscriptions t = 0%nat →
            ∃ t', os_preference_changes ds t = Returned tt t'
                  ∧ rendered t' = rendered t ∧ body t' = body t
                  ∧ settings t' = settings t
                  ∧ subscriptions t' = 0%nat).
  { clear. induction ds as [|d ds IH]; intros t Ht.
    - exists t. easy.
    - pose proof (os_preference_change_eq d t) as H1.
      rewrite Ht in H1. cbn [Nat.iter] in H1.
      destruct (IH (flipped d t) Ht) as (t' & H2 & Hr & Hb & Hs & H0).
      exists t'. simpl. rewrite (bind_returned _ _ _ _ _ H1). easy. }
  destruct (Hset darks (with_settings (JObject fields) s) Hn)
    as (s2 & H2 & Hr & Hb & Hs & _).
  exists (with_settings (JObject fields) s), s2. easy.
Qed.

Lemma stored_record_ignores_os_witness :
  localStorage stored_light !! SETTINGS_KEY = Some (record_text false)
  ∧ JSON.parse (record_text false) = Some (record false)
  ∧ subscriptions stored_light = 0%nat
  ∧ rendered
      (final ((constructor ;; os_preference_changes [false; true; false])
                stored_light))
    = [].
Proof.
  split; [reflexivity|]. split; [exact (parse_record_text false)|].
  split; [reflexivity|].
  destruct (stored_record_ignores_os stored_light (record_text false)
              [("darkMode", JBool false)] [false; true; false]
              eq_refl (parse_record_text false) eq_refl)
    as (s1 & s2 & H1 & H2 & Hr & _).
  rewrite (bind_returned _ _ _ _ _ H1), H2. exact Hr.
Defined.

(** X18. [setUserDefinedMode] ends no subscription.  With one still live, a
    later change of the OS preference repaints the body with the OS mode,
    while the settings and the stored record keep the mode the user chose. *)
Theorem user_mode_overridden_by_live_subscription (s : State) (b d : bool) :
  subscriptions s ≠ 0%nat →
  ∃ s1 s2,
    setUserDefinedMode b s = Returned tt s1
    ∧ subscriptions s1 = subscriptions s
    ∧ os_preference_change d s1 = Returned tt s2
    ∧ light_class_on s2 = negb d
    ∧ settings s2 = record b
    ∧ localStorage s2 !! SETTINGS_KEY = Some (record_text b).
Proof.
  intros Hn. eexists.
  destruct (os_preference_change_live
              (with_localStorage
                 (<[SETTINGS_KEY := record_text b]> (localStorage s))
                 (with_settings (record b) (shown b s))) d Hn)
    as (s2 & H2 & L & Hs & Hl & _).
  exists s2. split; [apply setUserDefinedMode_eq|].
  split; [reflexivity|]. split; [exact H2|]. split; [exact L|].
  split; [exact Hs|]. rewrite Hl. apply lookup_insert_eq.
Qed.

Lemma user_mode_overridden_by_live_subscription_witness :
  subscriptions busy_page ≠ 0%nat
  ∧ ∃ s2,
      (setDarkMode ;; os_preference_change false) busy_page = Returned tt s2
      ∧ light_class_on s2 = true
      ∧ settings s2 = record true.
Proof.
  split; [discriminate|].
  destruct (user_mode_overridden_by_live_subscription busy_page true false)
    as (s1 & s2 & H1 & _ & H2 & L & Hs & _); [discriminate|].
  exists s2. unfold setDarkMode.
  rewrite (bind_returned _ _ _ _ _ H1). split; [exact H2|].
  split; [exact L | exact Hs].
Defined.

(** X19. On a store that only the service writes, constructing the service
    leaves no error unhandled, at the start and after any sequence of
    calls: what the service stored always deserializes. *)
Theorem own_store_leaves_no_error (cs : list Call) (s : State) :
  written_by_service s →
  constructor_unhandled s = None
  ∧ ∃ s', perform_all cs s = Returned tt s'
          ∧ constructor_unhandled s' = None.
Proof.
  assert (Hnone : ∀ t, written_by_service t → constructor_unhandled t = None).
  { intros t Ht.
    destruct (constructor_cases t)
      as [(text & v & _ & _ & _ & _ & Hu & _)
         |[(text & Hk & _ & Hp & _) | (_ & Hu & _)]];
      [exact Hu | | exact Hu].
    exfalso. destruct Ht as [Hn|(b & Hb)]; [congruence|].
    rewrite Hk in Hb. injection Hb as ->.
    rewrite parse_record_text in Hp. discriminate Hp. }
  intros Hs. split; [now apply Hnone|].
  destruct (perform_all_kept written_by_service perform_written cs s Hs)
    as (s' & Hp & Hs').
  exists s'. split; [exact Hp | now apply Hnone].
Qed.

Lemma own_store_leaves_no_error_witness :
  written_by_service busy_page
  ∧ ∃ s',
      perform_all [SetLightMode; New; SetSystemMode; New] busy_page
      = Returned tt s'
      ∧ constructor_unhandled s' = None.
Proof.
  assert (H : written_by_service busy_page)
    by (right; exists true; reflexivity).
  split; [exact H|].
  exact (proj2 (own_store_leaves_no_error
                  [SetLightMode; New; SetSystemMode; New] busy_page H)).
Defined.
